(** * MQTT LED clock: the sketch's rendering and control logic, and its properties

    A shallow embedding of [MQTT_LED_Clock.ino].  The sketch's own functions
    ([displayNumber], [digitZero] .. [digitNine], [displayTheTime],
    [mqttCallback], [loop], [setup]) are translated one by one.  The vendor
    libraries it calls are modelled at their interface:

    - the NeoPixel driver ([stripClock]) as a buffer of [LEDCLOCK_COUNT]
      colour slots with the driver's [clear], [fill], [setBrightness] and
      [show];
    - the C library's [strtol], [atoi] and [strlen] on NUL-terminated byte
      buffers (ISO C semantics, 32-bit [long] and [int] as on the ESP32);
    - Wi-Fi, the MQTT client, [millis] and [getLocalTime] as observations
      handed to each loop iteration.

    [int] and [uint32_t] values are carried in [Z]; where the sketch relies on
    unsigned wrap-around ([millis() - lastTimeSync], the [uint32_t] cast of the
    parsed colour, the driver's [uint16_t] parameters) the reduction is written
    out. *)

From Stdlib Require Import ZArith List Bool Ascii String Lia.
Import ListNotations.
Local Open Scope Z_scope.

(** ** The NeoPixel driver, at its interface *)

Module NeoPixel.

(** [#define LEDCLOCK_COUNT 86], the length the strip object is built with. *)
Definition LEDCLOCK_COUNT : Z := 86.

(** The driver object: the colour last written to each slot (0 is "off"),
    the brightness last set, and the frame last latched out by [show].
    The driver's byte packing and its scaling of stored bytes by the
    brightness are below this interface. *)
Record Strip : Type := mkStrip
  { pixels : list Z;
    stripBrightness : Z;
    shown : list Z }.

(** The calls the sketch makes on [stripClock]. *)
Inductive StripOp : Type :=
| Begin
| Clear
| Fill (c first count : Z)
| SetBrightness (b : Z)
| Latch.   (* show() *)

Definition u8 (x : Z) : Z := x mod 256.
Definition u16 (x : Z) : Z := x mod 65536.

(** The loop [for (i = first; i < end; i++) setPixelColor(i, c)] over a
    buffer whose head has index [i]. *)
Fixpoint paint (c lo hi i : Z) (px : list Z) : list Z :=
  match px with
  | [] => []
  | p :: px' =>
      (if (lo <=? i) && (i <? hi) then c else p) :: paint c lo hi (i + 1) px'
  end.

(** [fill(uint32_t c, uint16_t first, uint16_t count)]: nothing when [first]
    is past the strip; [count = 0] fills to the end; the end is clipped to
    the strip. *)
Definition fill (c first count : Z) (st : Strip) : Strip :=
  let first := u16 first in
  let count := u16 count in
  if LEDCLOCK_COUNT <=? first then st
  else
    let end_ :=
      if count =? 0 then LEDCLOCK_COUNT
      else
        let e := u16 (first + count) in
        if LEDCLOCK_COUNT <? e then LEDCLOCK_COUNT else e in
    mkStrip (paint c first end_ 0 (pixels st)) (stripBrightness st) (shown st).

Definition exec (op : StripOp) (st : Strip) : Strip :=
  match op with
  | Begin => st
  | Clear =>
      mkStrip (repeat 0 (Z.to_nat LEDCLOCK_COUNT)) (stripBrightness st) (shown st)
  | Fill c first count => fill c first count st
  | SetBrightness b => mkStrip (pixels st) (u8 b) (shown st)
  | Latch => mkStrip (pixels st) (stripBrightness st) (pixels st)
  end.

(** A sequence of driver calls, in program order. *)
Definition run (ops : list StripOp) (st : Strip) : Strip :=
  fold_left (fun s op => exec op s) ops st.

(** The strip as constructed: all slots off. *)
Definition stripClock0 : Strip :=
  mkStrip (repeat 0 (Z.to_nat LEDCLOCK_COUNT)) 0 [].

(** The slot at index [i]; off when [i] is outside the buffer. *)
Definition pixel (st : Strip) (i : Z) : Z :=
  if i <? 0 then 0 else nth (Z.to_nat i) (pixels st) 0.

(** The indices [first, first + count). *)
Definition zrange (first count : Z) : list Z :=
  map (fun k => first + Z.of_nat k) (seq 0 (Z.to_nat count)).

(** The LED indices a call asks the driver to write, as the caller passes
    them (before the driver's own clipping). *)
Definition writes (op : StripOp) : list Z :=
  match op with
  | Clear => zrange 0 LEDCLOCK_COUNT
  | Fill _ first count => zrange first count
  | _ => []
  end.

Definition targets (ops : list StripOp) : list Z := flat_map writes ops.

(** Whether some [fill] of the sequence covers index [i]. *)
Definition covers (op : StripOp) (i : Z) : bool :=
  match op with
  | Fill _ first count => (first <=? i) && (i <? first + count)
  | _ => false
  end.

Definition covered (ops : list StripOp) (i : Z) : bool :=
  existsb (fun op => covers op i) ops.

(** A [fill] of colour [c] whose range lies on the strip. *)
Definition fillWithin (c : Z) (op : StripOp) : Prop :=
  match op with
  | Fill c' first count =>
      c' = c /\ 0 <= first /\ 0 < count /\ first + count <= LEDCLOCK_COUNT
  | _ => False
  end.

End NeoPixel.
Import NeoPixel.

(** ** Rendering: [displayNumber] and [displayTheTime] *)

Module Render.

Definition digitZero (offsetBy colourToUse : Z) : list StripOp :=
  [ Fill colourToUse offsetBy 3;          (* Lower right *)
    Fill colourToUse (offsetBy + 3) 3;    (* Bottom *)
    Fill colourToUse (offsetBy + 6) 3;    (* Lower left *)
    Fill colourToUse (offsetBy + 9) 3;    (* Upper left *)
    Fill colourToUse (offsetBy + 12) 3;   (* Top *)
    Fill colourToUse (offsetBy + 15) 3 ]. (* Upper right *)

Definition digitOne (offsetBy colourToUse : Z) : list StripOp :=
  [ Fill colourToUse offsetBy 3;
    Fill colourToUse (offsetBy + 15) 3 ].

Definition digitTwo (offsetBy colourToUse : Z) : list StripOp :=
  [ Fill colourToUse (offsetBy + 3) 3;
    Fill colourToUse (offsetBy + 6) 3;
    Fill colourToUse (offsetBy + 12) 3;
    Fill colourToUse (offsetBy + 15) 3;
    Fill colourToUse (offsetBy + 18) 3 ]. (* Middle *)

Definition digitThree (offsetBy colourToUse : Z) : list StripOp :=
  [ Fill colourToUse offsetBy 3;
    Fill colourToUse (offsetBy + 3) 3;
    Fill colourToUse (offsetBy + 12) 3;
    Fill colourToUse (offsetBy + 15) 3;
    Fill colourToUse (offsetBy + 18) 3 ].

Definition digitFour (offsetBy colourToUse : Z) : list StripOp :=
  [ Fill colourToUse offsetBy 3;
    Fill colourToUse (offsetBy + 9) 3;
    Fill colourToUse (offsetBy + 15) 3;
    Fill colourToUse (offsetBy + 18) 3 ].

Definition digitFive (offsetBy colourToUse : Z) : list StripOp :=
  [ Fill colourToUse offsetBy 3;
    Fill colourToUse (offsetBy + 3) 3;
    Fill colourToUse (offsetBy + 9) 3;
    Fill colourToUse (offsetBy + 12) 3;
    Fill colourToUse (offsetBy + 18) 3 ].

Definition digitSix (offsetBy colourToUse : Z) : list StripOp :=
  [ Fill colourToUse offsetBy 3;
    Fill colourToUse (offsetBy + 3) 3;
    Fill colourToUse (offsetBy + 6) 3;
    Fill colourToUse (offsetBy + 9) 3;
    Fill colourToUse (offsetBy + 12) 3;
    Fill colourToUse (offsetBy + 18) 3 ].

Definition digitSeven (offsetBy colourToUse : Z) : list StripOp :=
  [ Fill colourToUse offsetBy 3;
    Fill colourToUse (offsetBy + 12) 3;
    Fill colourToUse (offsetBy + 15) 3 ].

Definition digitEight (offsetBy colourToUse : Z) : list StripOp :=
  [ Fill colourToUse offsetBy 3;
    Fill colourToUse (offsetBy + 3) 3;
    Fill colourToUse (offsetBy + 6) 3;
    Fill colourToUse (offsetBy + 9) 3;
    Fill colourToUse (offsetBy + 12) 3;
    Fill colourToUse (offsetBy + 15) 3;
    Fill colourToUse (offsetBy + 18) 3 ].

Definition digitNine (offsetBy colourToUse : Z) : list StripOp :=
  [ Fill colourToUse offsetBy 3;
    Fill colourToUse (offsetBy + 9) 3;
    Fill colourToUse (offsetBy + 12) 3;
    Fill colourToUse (offsetBy + 15) 3;
    Fill colourToUse (offsetBy + 18) 3 ].

(** The [switch] of [displayNumber]; its [default] does nothing. *)
Definition displayNumber (digitToDisplay offsetBy colourToUse : Z)
  : list StripOp :=
  match digitToDisplay with
  | 0 => digitZero offsetBy colourToUse
  | 1 => digitOne offsetBy colourToUse
  | 2 => digitTwo offsetBy colourToUse
  | 3 => digitThree offsetBy colourToUse
  | 4 => digitFour offsetBy colourToUse
  | 5 => digitFive offsetBy colourToUse
  | 6 => digitSix offsetBy colourToUse
  | 7 => digitSeven offsetBy colourToUse
  | 8 => digitEight offsetBy colourToUse
  | 9 => digitNine offsetBy colourToUse
  | _ => []
  end.

(** [displayTheTime]: C's [%] and [/] on [int] truncate toward zero
    ([Z.rem], [Z.quot]); [floor] of an already integral quotient is the
    quotient. *)
Definition displayTheTime (currentHour currentMinute currentColor : Z)
  : list StripOp :=
  let firstMinuteDigit := Z.rem currentMinute 10 in
  let secondMinuteDigit := Z.quot currentMinute 10 in
  [Clear]
    ++ displayNumber firstMinuteDigit 0 currentColor
    ++ displayNumber secondMinuteDigit 21 currentColor
    ++ [Fill currentColor 42 1; Fill currentColor 43 1]
    ++ (if 9 <? currentHour then
          displayNumber (Z.quot currentHour 10) 65 currentColor
            ++ displayNumber (Z.rem currentHour 10) 44 currentColor
        else
          displayNumber currentHour 44 currentColor)
    ++ [Latch].

(** The fills of a frame, between its [clear] and its [show]. *)
Definition frameFills (currentHour currentMinute currentColor : Z)
  : list StripOp :=
  displayNumber (Z.rem currentMinute 10) 0 currentColor
    ++ displayNumber (Z.quot currentMinute 10) 21 currentColor
    ++ [Fill currentColor 42 1; Fill currentColor 43 1]
    ++ (if 9 <? currentHour then
          displayNumber (Z.quot currentHour 10) 65 currentColor
            ++ displayNumber (Z.rem currentHour 10) 44 currentColor
        else
          displayNumber currentHour 44 currentColor).

End Render.
Import Render.

(** ** The segment tables, as the specification words them *)

Module SegmentTable.

Inductive Segment : Type :=
| LowerRight | Bottom | LowerLeft | UpperLeft | Top | UpperRight | Middle.

(** Relative LED offset of each segment within a digit slot. *)
Definition segmentOffsets (s : Segment) : Z :=
  match s with
  | LowerRight => 0
  | Bottom => 3
  | LowerLeft => 6
  | UpperLeft => 9
  | Top => 12
  | UpperRight => 15
  | Middle => 18
  end.

(** Digit to active segments, row by row. *)
Definition digitSegments (d : Z) : list Segment :=
  match d with
  | 0 => [LowerRight; Bottom; LowerLeft; UpperLeft; Top; UpperRight]
  | 1 => [LowerRight; UpperRight]
  | 2 => [Bottom; LowerLeft; Top; UpperRight; Middle]
  | 3 => [LowerRight; Bottom; Top; UpperRight; Middle]
  | 4 => [LowerRight; UpperLeft; UpperRight; Middle]
  | 5 => [LowerRight; Bottom; UpperLeft; Top; Middle]
  | 6 => [LowerRight; Bottom; LowerLeft; UpperLeft; Top; Middle]
  | 7 => [LowerRight; Top; UpperRight]
  | 8 => [LowerRight; Bottom; LowerLeft; UpperLeft; Top; UpperRight; Middle]
  | 9 => [LowerRight; UpperLeft; Top; UpperRight; Middle]
  | _ => []
  end.

(** LED [i] belongs to segment [s] of the slot at [base]. *)
Definition inSegment (base : Z) (s : Segment) (i : Z) : bool :=
  (base + segmentOffsets s <=? i) && (i <? base + segmentOffsets s + 3).

(** LED [i] belongs to a segment of digit [d] in the slot at [base]. *)
Definition litBy (d base i : Z) : bool :=
  existsb (fun s => inSegment base s i) (digitSegments d).

(** The frame for [hour]:[minute], LED by LED: the two minute digits, the
    separator, and one or two hour digits. *)
Definition frameLit (hour minute i : Z) : bool :=
  litBy (minute mod 10) 0 i
  || litBy (minute / 10) 21 i
  || (i =? 42) || (i =? 43)
  || (if 9 <? hour then litBy (hour / 10) 65 i || litBy (hour mod 10) 44 i
      else litBy hour 44 i).

(** The base offsets of the four digit slots: minutes-ones, minutes-tens,
    hours-ones, hours-tens. *)
Definition slotBases : list Z := [0; 21; 44; 65].

End SegmentTable.
Import SegmentTable.

(** ** The C library calls of [mqttCallback] *)

Module CLib.

Definition NUL : ascii := Ascii.zero.
Definition code (c : ascii) : Z := Z.of_N (N_of_ascii c).

(** The C string at a pointer into a buffer: the bytes before the first
    NUL. *)
Fixpoint cstr (buf : list ascii) : list ascii :=
  match buf with
  | [] => []
  | c :: rest => if Ascii.eqb c NUL then [] else c :: cstr rest
  end.

Definition strlen (buf : list ascii) : Z := Z.of_nat (List.length (cstr buf)).

(** [isspace] in the C locale: space and the controls 9..13. *)
Definition isspace (c : ascii) : bool :=
  (code c =? 32) || ((9 <=? code c) && (code c <=? 13)).

(** Value of a digit or letter, whatever the base. *)
Definition digitValue (c : ascii) : option Z :=
  let n := code c in
  if (48 <=? n) && (n <=? 57) then Some (n - 48)
  else if (97 <=? n) && (n <=? 122) then Some (n - 87)
  else if (65 <=? n) && (n <=? 90) then Some (n - 55)
  else None.

Definition digitIn (base : Z) (c : ascii) : option Z :=
  match digitValue c with
  | Some v => if v <? base then Some v else None
  | None => None
  end.

Fixpoint skipSpace (s : list ascii) : list ascii :=
  match s with
  | c :: rest => if isspace c then skipSpace rest else s
  | [] => []
  end.

(** The longest run of digits of [base], accumulated from [acc]; returns
    the value and the unread rest. *)
Fixpoint digits (base acc : Z) (s : list ascii) : Z * list ascii :=
  match s with
  | c :: rest =>
      match digitIn base c with
      | Some v => digits base (acc * base + v) rest
      | None => (acc, s)
      end
  | [] => (acc, [])
  end.

Definition LONG_MAX : Z := 2147483647.
Definition LONG_MIN : Z := -2147483648.

Definition clampLong (v : Z) : Z :=
  if LONG_MAX <? v then LONG_MAX else if v <? LONG_MIN then LONG_MIN else v.

Definition isChar (c : ascii) (n : Z) : bool := code c =? n.

(** Sign of the subject sequence: [true] for a leading '-'. *)
Definition takeSign (s : list ascii) : bool * list ascii :=
  match s with
  | c :: rest =>
      if isChar c 45 then (true, rest)
      else if isChar c 43 then (false, rest)
      else (false, s)
  | [] => (false, [])
  end.

(** For base 16 an optional "0x" or "0X" may precede the digits; it is part
    of the subject sequence only when a hex digit follows it. *)
Definition takePrefix (base : Z) (s : list ascii) : list ascii :=
  if base =? 16 then
    match s with
    | z :: x :: h :: rest =>
        if isChar z 48 && (isChar x 120 || isChar x 88) then
          match digitIn 16 h with
          | Some _ => h :: rest
          | None => s
          end
        else s
    | _ => s
    end
  else s.

(** [strtol(nptr, &endptr, base)] for base 10 or 16: white space, an
    optional sign, an optional prefix, then digits.  The result is the
    value, saturated to [long], and the text [endptr] points to; without
    any digit the value is 0 and [endptr] is [nptr]. *)
Definition strtol (nptr : list ascii) (base : Z) : Z * list ascii :=
  let '(neg, s1) := takeSign (skipSpace nptr) in
  let s2 := takePrefix base s1 in
  match s2 with
  | c :: _ =>
      match digitIn base c with
      | Some _ =>
          let '(v, rest) := digits base 0 s2 in
          (clampLong (if neg then - v else v), rest)
      | None => (0, nptr)
      end
  | [] => (0, nptr)
  end.

(** [atoi(s)] is [(int) strtol(s, NULL, 10)]; [int] and [long] have the
    same width here. *)
Definition atoi (nptr : list ascii) : Z := fst (strtol nptr 10).

(** [*p] for a pointer into a buffer; reading at the end of the modelled
    buffer yields the terminator. *)
Definition deref (p : list ascii) : ascii := hd NUL p.

(** [char buf[size] = {0}] followed by the copy loop
    [for (i = 0; i < length && i < size - 1; i++) buf[i] = payload[i]]. *)
Definition copyInto (size : nat) (payload : list ascii) : list ascii :=
  let copied := firstn (size - 1) payload in
  copied ++ repeat NUL (size - List.length copied).

End CLib.
Import CLib.

(** ** The sketch: globals, the MQTT callback, [setup] and [loop] *)

Module Sketch.

Definition MQTT_COLOR_TOPIC : string := "YOUR/COLOR/TOPIC".
Definition MQTT_BRIGHTNESS_TOPIC : string := "YOUR/BRIGHTNESS/TOPIC".

(** [const unsigned long syncInterval = 900000]. *)
Definition syncInterval : Z := 900000.

(** [unsigned long] and [uint32_t] are 32 bits wide. *)
Definition u32 (x : Z) : Z := x mod 2 ^ 32.

(** The sketch's global variables. *)
Record Globals : Type := mkGlobals
  { wifiConnected : bool;
    stored_mqtt_color_topic : string;
    stored_mqtt_brightness_topic : string;
    mqttColorActive : bool;
    mqttColor : Z;
    lastTimeSync : Z;
    clockColour : Z;
    brightness : Z;
    currentHour : Z;
    currentMinute : Z;
    currentSecond : Z;
    previousMinute : Z }.

Definition set_wifiConnected (v : bool) (g : Globals) : Globals :=
  mkGlobals v (stored_mqtt_color_topic g) (stored_mqtt_brightness_topic g)
    (mqttColorActive g) (mqttColor g) (lastTimeSync g) (clockColour g)
    (brightness g) (currentHour g) (currentMinute g) (currentSecond g)
    (previousMinute g).

Definition set_mqttColorActive (v : bool) (g : Globals) : Globals :=
  mkGlobals (wifiConnected g) (stored_mqtt_color_topic g)
    (stored_mqtt_brightness_topic g) v (mqttColor g) (lastTimeSync g)
    (clockColour g) (brightness g) (currentHour g) (currentMinute g)
    (currentSecond g) (previousMinute g).

Definition set_mqttColor (v : Z) (g : Globals) : Globals :=
  mkGlobals (wifiConnected g) (stored_mqtt_color_topic g)
    (stored_mqtt_brightness_topic g) (mqttColorActive g) v (lastTimeSync g)
    (clockColour g) (brightness g) (currentHour g) (currentMinute g)
    (currentSecond g) (previousMinute g).

Definition set_lastTimeSync (v : Z) (g : Globals) : Globals :=
  mkGlobals (wifiConnected g) (stored_mqtt_color_topic g)
    (stored_mqtt_brightness_topic g) (mqttColorActive g) (mqttColor g) v
    (clockColour g) (brightness g) (currentHour g) (currentMinute g)
    (currentSecond g) (previousMinute g).

Definition set_brightness (v : Z) (g : Globals) : Globals :=
  mkGlobals (wifiConnected g) (stored_mqtt_color_topic g)
    (stored_mqtt_brightness_topic g) (mqttColorActive g) (mqttColor g)
    (lastTimeSync g) (clockColour g) v (currentHour g) (currentMinute g)
    (currentSecond g) (previousMinute g).

Definition set_currentTime (h m s : Z) (g : Globals) : Globals :=
  mkGlobals (wifiConnected g) (stored_mqtt_color_topic g)
    (stored_mqtt_brightness_topic g) (mqttColorActive g) (mqttColor g)
    (lastTimeSync g) (clockColour g) (brightness g) h m s (previousMinute g).

(** The globals as initialised, with the topics [setup] stores. *)
Definition globals0 : Globals :=
  mkGlobals false MQTT_COLOR_TOPIC MQTT_BRIGHTNESS_TOPIC false 0 0
    13685629 (* 0xD0D37D *) 25 0 0 0 0.

(** The colour branch for a non-empty payload, up to its test: the buffer
    [colorStr[8]], the optional '#', [strtol] in base 16, and
    [*endptr == 0 && strlen(hexStr) == 6].  [Some] carries
    [(uint32_t) colorVal]. *)
Definition parseColor (payload : list ascii) : option Z :=
  let colorStr := copyInto 8 payload in
  let hexStr := if isChar (deref colorStr) 35 then tl colorStr else colorStr in
  let '(colorVal, endptr) := strtol hexStr 16 in
  if Ascii.eqb (deref endptr) NUL && (strlen hexStr =? 6)
  then Some (u32 colorVal)
  else None.

(** The brightness branch: [brightnessStr[5]], [atoi], and the range
    test. *)
Definition brightnessBranch (payload : list ascii) (g : Globals) : Globals :=
  if 0 <? Z.of_nat (List.length payload) then
    let brightnessStr := copyInto 5 payload in
    let val := atoi brightnessStr in
    if (0 <=? val) && (val <=? 255) then set_brightness val g else g
  else g.

(** [mqttCallback(topic, payload, length)]: the colour branch returns early
    on an empty payload; otherwise both topic tests are made in turn. *)
Definition mqttCallback (topic : string) (payload : list ascii) (g : Globals)
  : Globals :=
  let onBrightness (g : Globals) :=
    if String.eqb topic (stored_mqtt_brightness_topic g)
    then brightnessBranch payload g else g in
  if String.eqb topic (stored_mqtt_color_topic g) then
    if Z.of_nat (List.length payload) =? 0 then
      set_mqttColorActive false g
    else
      onBrightness
        (match parseColor payload with
         | Some colorVal => set_mqttColorActive true (set_mqttColor colorVal g)
         | None => set_mqttColorActive false g
         end)
  else onBrightness g.

(** What one pass of [loop] observes of its collaborators, in the order the
    calls are made. *)
Record Cycle : Type := mkCycle
  { wifi_at_entry : bool;       (* WiFi.status() == WL_CONNECTED, first test *)
    wifi_reconnected : bool;    (* the same at the end of connectToWiFi *)
    millis_at_check : Z;        (* millis() in the resync test *)
    millis_at_update : Z;       (* millis() stored in lastTimeSync *)
    local_time : option (Z * Z * Z);  (* getLocalTime: hour, minute, second *)
    wifi_at_bus : bool;         (* WiFi.status() == WL_CONNECTED, second test *)
    bus_connected : bool;       (* mqttClient.connected() *)
    inbound : option (string * list ascii) }.
                                (* the PUBLISH mqttClient.loop() dispatches *)

(** Calls on the collaborators, as one pass issues them. *)
Inductive Event : Type :=
| EvConnectWiFi
| EvConfigTzTime
| EvConnectMQTT
| EvStrip (op : StripOp)
| EvDelay (ms : Z).

(** [connectToWiFi]: sets [wifiConnected] when the link came up. *)
Definition connectToWiFi (up : bool) (g : Globals) : Globals * list Event :=
  (if up then set_wifiConnected true g else g, [EvConnectWiFi]).

(** The colour source chosen for the frame. *)
Definition displayColor (g : Globals) : Z :=
  if mqttColorActive g then mqttColor g else clockColour g.

(** One pass of [loop], for a pass that returns, with its two blocking
    calls taken whole: [EvConnectWiFi] stands for a [connectToWiFi] call with
    its one-second delays, [EvConnectMQTT] for a [connectToMQTT] call that
    came back.  [loopPolled] below spells both calls out, poll by poll, and
    has the pass that does not come back. *)
Definition loop (e : Cycle) (g : Globals) : Globals * list Event :=
  let '(g1, ev1) :=
    if negb (wifi_at_entry e) then connectToWiFi (wifi_reconnected e) g
    else (g, []) in
  let '(g2, ev2) :=
    if syncInterval <? u32 (millis_at_check e - lastTimeSync g1)
    then (set_lastTimeSync (millis_at_update e) g1, [EvConfigTzTime])
    else (g1, []) in
  let g3 :=
    match local_time e with
    | None => g2
    | Some (h, m, s) => set_currentTime h m s g2
    end in
  let '(g4, ev4) :=
    if wifi_at_bus e then
      let '(g', ev') :=
        if negb (bus_connected e)
        then (set_mqttColorActive false g3, [EvConnectMQTT])
        else (g3, []) in
      (match inbound e with
       | Some (topic, payload) => mqttCallback topic payload g'
       | None => g'
       end, ev')
    else (g3, []) in
  (g4,
   ev1 ++ ev2 ++ ev4
     ++ map EvStrip
          (SetBrightness (brightness g4)
             :: displayTheTime (currentHour g4) (currentMinute g4)
                  (displayColor g4))
     ++ [EvDelay (if wifiConnected g4 then 500 else 100)]).

(** [setup]: the topics are stored, the time source configured, the strip
    started after [delay(150)], and the link attempted once. *)
Definition setup (wifi_up : bool) : Globals * list Event :=
  let '(g, ev) := connectToWiFi wifi_up globals0 in
  (g,
   [EvConfigTzTime; EvDelay 150; EvStrip Begin; EvStrip Latch;
    EvStrip (SetBrightness (brightness globals0))] ++ ev).

(** The states the sketch reaches, with the calls made so far. *)
Inductive runs : Globals -> list Event -> Prop :=
| runs_setup : forall wifi_up,
    runs (fst (setup wifi_up)) (snd (setup wifi_up))
| runs_loop : forall g tr e,
    runs g tr -> runs (fst (loop e g)) (tr ++ snd (loop e g)).

(** Several passes in a row. *)
Fixpoint loops (es : list Cycle) (g : Globals) : Globals * list Event :=
  match es with
  | [] => (g, [])
  | e :: es' =>
      let '(g1, ev1) := loop e g in
      let '(g2, ev2) := loops es' g1 in
      (g2, ev1 ++ ev2)
  end.

(** The driver calls among the events. *)
Definition stripCalls (evs : list Event) : list StripOp :=
  flat_map (fun ev => match ev with EvStrip op => [op] | _ => [] end) evs.

(** The arguments of the [setBrightness] calls among the events. *)
Definition brightnessCalls (evs : list Event) : list Z :=
  flat_map (fun ev => match ev with
                      | EvStrip (SetBrightness b) => [b]
                      | _ => []
                      end) evs.

(** The pass dispatches a message that activates the colour override. *)
Definition activates (e : Cycle) (g : Globals) : bool :=
  match inbound e with
  | Some (topic, payload) =>
      wifi_at_bus e
      && String.eqb topic (stored_mqtt_color_topic g)
      && match parseColor payload with Some _ => true | None => false end
  | None => false
  end.

(** The globals a message cannot change. *)
Definition sameSettings (g g' : Globals) : Prop :=
  wifiConnected g' = wifiConnected g
  /\ stored_mqtt_color_topic g' = stored_mqtt_color_topic g
  /\ stored_mqtt_brightness_topic g' = stored_mqtt_brightness_topic g
  /\ lastTimeSync g' = lastTimeSync g
  /\ clockColour g' = clockColour g
  /\ currentHour g' = currentHour g
  /\ currentMinute g' = currentMinute g.

(** The bytes of a payload given as text. *)
Definition bytes (s : string) : list ascii := list_ascii_of_string s.

(** Six hex digits, as the colour topic expects them, and their value. *)
Definition isHexDigit (c : ascii) : bool :=
  match digitIn 16 c with Some _ => true | None => false end.

Definition hexValue (l : list ascii) : Z :=
  fold_left (fun acc c => acc * 16 + match digitValue c with
                                     | Some v => v
                                     | None => 0
                                     end) l 0.


(** The decimal text of a number below 1000, without leading zeros. *)
Definition digitChar (d : Z) : ascii := ascii_of_N (Z.to_N (48 + d)).

Definition decimal (n : Z) : list ascii :=
  if n <? 10 then [digitChar n]
  else if n <? 100 then [digitChar (n / 10); digitChar (n mod 10)]
  else [digitChar (n / 100); digitChar (n / 10 mod 10); digitChar (n mod 10)].




(** A pass that receives the brightness message "200". *)
Definition dimPass : Cycle :=
  mkCycle true true 1000 1000 (Some (7, 5, 0)) true true
    (Some (MQTT_BRIGHTNESS_TOPIC, bytes "200")).


End Sketch.
Import Sketch.


(** ** Reading a frame back *)

Module Readout.

(** The LEDs of the strip that are not off. *)
Definition lit (st : Strip) (i : Z) : bool := negb (pixel st i =? 0).

(** The 21 LEDs of the slot at [base] show digit [d] as [displayNumber]
    draws it. *)
Definition slotIs (f : Z -> bool) (base d : Z) : bool :=
  forallb (fun k => Bool.eqb (f (base + k))
                      (covered (displayNumber d base 1) (base + k)))
          (zrange 0 21).

Definition slotBlank (f : Z -> bool) (base : Z) : bool :=
  forallb (fun k => negb (f (base + k))) (zrange 0 21).

Definition readDigit (f : Z -> bool) (base : Z) : option Z :=
  find (slotIs f base) (zrange 0 10).

(** The time a lit pattern shows: three digits and a blank tens slot, or
    four digits. *)
Definition readTime (f : Z -> bool) : option (Z * Z) :=
  match readDigit f 0, readDigit f 21, readDigit f 44 with
  | Some m1, Some m10, Some h1 =>
      if slotBlank f 65 then Some (h1, 10 * m10 + m1)
      else match readDigit f 65 with
           | Some h10 => Some (10 * h10 + h1, 10 * m10 + m1)
           | None => None
           end
  | _, _, _ => None
  end.

(** A LED offset of the slot where two digits differ, if any. *)
Definition distinguish (d d' : Z) : option Z :=
  find (fun k => xorb (covered (displayNumber d 0 1) k)
                      (covered (displayNumber d' 0 1) k))
       (zrange 0 21).

End Readout.
Import Readout.

(** ** [connectToWiFi] and [connectToMQTT], poll by poll *)

Module Connectivity.

(** Calls on the network collaborators. *)
Inductive Call : Type :=
| WifiMode
| WifiSetHostname
| WifiBegin
| Delay (ms : Z)
| MqttConnect
| MqttSubscribe (topic : string).

(** The loop [while (WiFi.status() != WL_CONNECTED && timeout-- > 0)
    delay(1000)]: [status k] is the k-th status read of the call, [timeout]
    what is left of the counter; the result is the number of delays made. *)
Fixpoint waitForLink (status : nat -> bool) (timeout k : nat) : nat :=
  if status k then k
  else match timeout with
       | O => k
       | S t => waitForLink status t (S k)
       end.

(** [connectToWiFi]: the station is started, the link awaited with
    [timeout = 15], and the status read once more for the result. *)
Definition connectToWiFiPolled (status : nat -> bool) (g : Globals)
  : bool * Globals * list Call :=
  let delays := waitForLink status 15 0 in
  let calls :=
    [WifiMode; WifiSetHostname; WifiBegin] ++ repeat (Delay 1000) delays in
  if status (S delays) then (true, set_wifiConnected true g, calls)
  else (false, g, calls).

(** One round of [connectToMQTT]'s loop body. *)
Definition mqttRound (ok : bool) (g : Globals) : list Call :=
  if ok then
    [MqttConnect;
     MqttSubscribe (stored_mqtt_color_topic g);
     MqttSubscribe (stored_mqtt_brightness_topic g)]
  else [MqttConnect; Delay 5000].

(** The loop [while (!mqttClient.connected())] of [connectToMQTT]:
    [connected k] and [connect k] are the results of the k-th calls of
    [mqttClient.connected()] and [mqttClient.connect()].  The loop has no
    bound of its own; [None] is a run still retrying after [fuel] rounds. *)
Fixpoint mqttRetry (fuel : nat) (connected connect : nat -> bool)
  (g : Globals) (k : nat) : option (list Call) :=
  if connected k then Some []
  else match fuel with
       | O => None
       | S fuel' =>
           match mqttRetry fuel' connected connect g (S k) with
           | Some rest => Some (mqttRound (connect k) g ++ rest)
           | None => None
           end
       end.

(** [connectToMQTT]: nothing at all while the link is down. *)
Definition connectToMQTTPolled (fuel : nat) (wifi : bool)
  (connected connect : nat -> bool) (g : Globals) : option (list Call) :=
  if wifi then mqttRetry fuel connected connect g 0 else Some [].

(** The delays among the calls. *)
Definition delays (calls : list Call) : list Z :=
  flat_map (fun c => match c with Delay ms => [ms] | _ => [] end) calls.

(** A link that comes up at the third read, and a broker that refuses
    twice. *)
Definition upAtThird (k : nat) : bool := Nat.leb 3 k.
Definition sessionAtThird (k : nat) : bool := Nat.leb 2 k.
Definition acceptAtSecond (k : nat) : bool := Nat.leb 1 k.

(** A step of a pass spelled out: a call on the network collaborators, or
    one of the calls of the pass itself. *)
Inductive Step : Type :=
| Net (c : Call)
| Out (ev : Event).

(** [connectToMQTT]'s loop with the calls made so far: the flag tells
    whether the loop has ended after at most [fuel] rounds. *)
Fixpoint mqttRounds (fuel : nat) (connected connect : nat -> bool)
  (g : Globals) (k : nat) : bool * list Call :=
  if connected k then (true, [])
  else match fuel with
       | O => (false, [])
       | S fuel' =>
           let '(ended, rest) := mqttRounds fuel' connected connect g (S k) in
           (ended, mqttRound (connect k) g ++ rest)
       end.

(** The driver calls, the bus calls and the [configTzTime] calls among the
    steps, and the time spent in [delay]. *)
Definition stripSteps (tr : list Step) : list StripOp :=
  flat_map (fun st => match st with Out (EvStrip op) => [op] | _ => [] end) tr.



Definition waited (tr : list Step) : Z :=
  fold_right Z.add 0
    (flat_map (fun st => match st with
                         | Net (Delay ms) => [ms]
                         | Out (EvDelay ms) => [ms]
                         | _ => []
                         end) tr).

End Connectivity.
Import Connectivity.

(** ** One pass of [loop], poll by poll *)

Module Polled.

(** What a pass observes: the reads of [Cycle] (its [wifi_reconnected] is
    superseded by [link_reads]), the status reads inside [connectToWiFi], the
    status read at the top of [connectToMQTT], and the results of the
    successive [mqttClient.connected()] and [mqttClient.connect()] calls
    inside its loop. *)
Record Polls : Type := mkPolls
  { seen : Cycle;
    link_reads : nat -> bool;
    link_in_connect : bool;
    session_reads : nat -> bool;
    connect_results : nat -> bool }.

(** The pass of [loop] that these polls amount to. *)
Definition cycleOf (o : Polls) : Cycle :=
  mkCycle (wifi_at_entry (seen o))
    (link_reads o (S (waitForLink (link_reads o) 15 0)))
    (millis_at_check (seen o)) (millis_at_update (seen o))
    (local_time (seen o)) (wifi_at_bus (seen o)) (bus_connected (seen o))
    (inbound (seen o)).

(** [mqttClient.loop()]: the callback on the message it dispatches. *)
Definition dispatch (m : option (string * list ascii)) (g : Globals)
  : Globals :=
  match m with
  | Some (topic, payload) => mqttCallback topic payload g
  | None => g
  end.

(** The end of a pass: brightness, frame and the closing delay. *)
Definition frameSteps (g : Globals) : list Step :=
  map Out
    (map EvStrip
       (SetBrightness (brightness g)
          :: displayTheTime (currentHour g) (currentMinute g) (displayColor g))
     ++ [EvDelay (if wifiConnected g then 500 else 100)]).

(** One pass of [loop] with [connectToWiFi] and [connectToMQTT] spelled
    out.  The result is [None] while [connectToMQTT] is still retrying after
    [fuel] rounds; the steps are those made so far. *)
Definition loopPolled (fuel : nat) (o : Polls) (g : Globals)
  : option Globals * list Step :=
  let e := seen o in
  let '(g1, tr1) :=
    if negb (wifi_at_entry e)
    then (snd (fst (connectToWiFiPolled (link_reads o) g)),
          map Net (snd (connectToWiFiPolled (link_reads o) g)))
    else (g, []) in
  let '(g2, tr2) :=
    if syncInterval <? u32 (millis_at_check e - lastTimeSync g1)
    then (set_lastTimeSync (millis_at_update e) g1, [Out EvConfigTzTime])
    else (g1, []) in
  let g3 :=
    match local_time e with
    | None => g2
    | Some (h, m, s) => set_currentTime h m s g2
    end in
  if wifi_at_bus e then
    if negb (bus_connected e) then
      let '(ended, calls) :=
        if link_in_connect o
        then mqttRounds fuel (session_reads o) (connect_results o) g3 0
        else (true, []) in
      if ended then
        let g4 := dispatch (inbound e) (set_mqttColorActive false g3) in
        (Some g4, tr1 ++ tr2 ++ map Net calls ++ frameSteps g4)
      else (None, tr1 ++ tr2 ++ map Net calls)
    else
      let g4 := dispatch (inbound e) g3 in
      (Some g4, tr1 ++ tr2 ++ frameSteps g4)
  else (Some g3, tr1 ++ tr2 ++ frameSteps g3).



(** A pass that finds the link down, waits in vain, and is 15 minutes and a
    millisecond past the last sync. *)
Definition lostPolls : Polls :=
  mkPolls (mkCycle false false 900001 900002 None false false None)
    (fun _ => false) false (fun _ => false) (fun _ => false).

End Polled.
Import Polled.

(** ** The variant of the sketch with the configuration portal *)

Module Portal.

(** What [setup] reads from the preferences store, defaults applied. *)
Record Stored : Type := mkStored
  { stored_wifi_ssid : string;
    stored_color_topic : string;
    stored_brightness_topic : string }.

Definition globalsOf (p : Stored) : Globals :=
  mkGlobals false (stored_color_topic p) (stored_brightness_topic p) false 0 0
    13685629 25 0 0 0 0.

(** [connectToWiFi] of the variant: without a stored SSID it returns false
    before any call. *)
Definition connectToWiFi (p : Stored) (status : nat -> bool) (g : Globals)
  : bool * Globals * list Call :=
  if (String.length (stored_wifi_ssid p) =? 0)%nat then (false, g, [])
  else connectToWiFiPolled status g.

(** [setup] of the variant: when [connectToWiFi] fails it enters
    [startConfigPortal], whose [while (true)] never returns; [None] stands
    for that.  Otherwise the time source is configured and, after
    [delay(150)], the strip started. *)
Definition setup (p : Stored) (status : nat -> bool)
  : option (Globals * list Step) :=
  match connectToWiFi p status (globalsOf p) with
  | (true, g, calls) =>
      Some (g, map Net calls
                 ++ map Out [EvConfigTzTime; EvDelay 150; EvStrip Begin;
                             EvStrip Latch;
                             EvStrip (SetBrightness (brightness g))])
  | (false, _, _) => None
  end.

(** One pass of the variant's [loop].  The link is re-awaited inline with
    [timeout = 10]; the bus session is tested whatever the link, and
    [connectToMQTT] here is the bare retry loop.  The result is [None] while
    that loop is still retrying after [fuel] rounds.
    [server.handleClient()] serves the web form, whose handlers only
    [startConfigPortal] installs; it touches no global here. *)
Definition loop (fuel : nat) (o : Polls) (g : Globals)
  : option Globals * list Step :=
  let e := seen o in
  let '(g1, tr1) :=
    if negb (wifi_at_entry e) then
      let n := waitForLink (link_reads o) 10 0 in
      (if link_reads o (S n) then set_wifiConnected true g else g,
       map Net (WifiBegin :: repeat (Delay 1000) n))
    else (g, []) in
  let '(g2, tr2) :=
    if syncInterval <? u32 (millis_at_check e - lastTimeSync g1)
    then (set_lastTimeSync (millis_at_update e) g1, [Out EvConfigTzTime])
    else (g1, []) in
  let g3 :=
    match local_time e with
    | None => g2
    | Some (h, m, s) => set_currentTime h m s g2
    end in
  if negb (bus_connected e) then
    let '(ended, calls) :=
      mqttRounds fuel (session_reads o) (connect_results o) g3 0 in
    if ended then
      let g4 := dispatch (inbound e) (set_mqttColorActive false g3) in
      (Some g4, tr1 ++ tr2 ++ map Net calls ++ frameSteps g4)
    else (None, tr1 ++ tr2 ++ map Net calls)
  else
    let g4 := dispatch (inbound e) g3 in
    (Some g4, tr1 ++ tr2 ++ frameSteps g4).

(** The states the variant reaches: after a [setup] that returned, and after
    each pass that returned. *)
Inductive runs (p : Stored) : Globals -> list Step -> Prop :=
| runs_setup : forall status g tr,
    setup p status = Some (g, tr) -> runs p g tr
| runs_loop : forall g tr fuel o g',
    runs p g tr ->
    fst (loop fuel o g) = Some g' ->
    runs p g' (tr ++ snd (loop fuel o g)).

(** The pass dispatches a colour message the callback accepts. *)
Definition activates (e : Cycle) (g : Globals) : bool :=
  match inbound e with
  | Some (topic, payload) =>
      String.eqb topic (stored_mqtt_color_topic g)
      && match parseColor payload with Some _ => true | None => false end
  | None => false
  end.

Definition homeStored : Stored :=
  mkStored "home" "led-clock/color-hex" "led-clock/brightness".

(** The state after a [setup] of [homeStored] that found the link. *)
Definition homeGlobals : Globals :=
  set_wifiConnected true (globalsOf homeStored).

(** A pass that finds the link gone and does not get it back in its ten
    one-second waits, the bus client still reporting its session. *)
Definition awayPolls : Polls :=
  mkPolls (mkCycle false false 4000 4000 (Some (12, 35, 0)) false true None)
    (fun _ => false) false (fun _ => true) (fun _ => true).

End Portal.

(** ** Auxiliary notions for the properties below *)

Module Aux.

(** The text the colour branch tests: the C string at [hexStr]. *)
Definition testedText (payload : list ascii) : list ascii :=
  let colorStr := copyInto 8 payload in
  cstr (if isChar (deref colorStr) 35 then tl colorStr else colorStr).

Definition isSign (sg : list ascii) : Prop :=
  sg = [] \/ sg = ["+"%char] \/ sg = ["-"%char].

Definition isPrefix (px : list ascii) : Prop :=
  px = [] \/ px = ["0"%char; "x"%char] \/ px = ["0"%char; "X"%char].

Definition isMinus (sg : list ascii) : bool :=
  match sg with
  | [c] => isChar c 45
  | _ => false
  end.

Definition nonNUL (c : ascii) : bool := negb (Ascii.eqb c NUL).

(** One step of [hexValue]. *)
Definition hexStep (acc : Z) (c : ascii) : Z :=
  acc * 16 + match digitValue c with Some v => v | None => 0 end.

(** The [configTzTime] calls among the events. *)
Definition syncCalls (evs : list Event) : nat :=
  List.length (filter (fun ev => match ev with
                                | EvConfigTzTime => true
                                | _ => false
                                end) evs).

(** A pass in which the link is down and the clock cannot be read. *)
Definition darkPass : Cycle :=
  mkCycle false false 3000 3000 None false false None.

(** A pass that receives the colour message "00FF00" at 21:07. *)
Definition greenPass : Cycle :=
  mkCycle true true 4000 4000 (Some (21, 7, 30)) true true
    (Some (MQTT_COLOR_TOPIC, bytes "00FF00")).

(** A strip holding leftovers of an earlier frame. *)
Definition usedStrip : Strip :=
  run (displayTheTime 23 59 255) stripClock0.

End Aux.
Import Aux.

(** * Properties *)

(** ** The driver model *)

Section DriverFacts.

Lemma paint_length c lo hi i px :
  List.length (paint c lo hi i px) = List.length px.
Proof.
  revert i; induction px as [|p px IH]; intros i; simpl; [reflexivity|].
  now rewrite IH.
Qed.

Lemma paint_nth c lo hi px : forall i (k : nat),
  (k < List.length px)%nat ->
  nth k (paint c lo hi i px) 0 =
    if (lo <=? i + Z.of_nat k) && (i + Z.of_nat k <? hi) then c
    else nth k px 0.
Proof.
  induction px as [|p px IH]; intros i k Hk; simpl in Hk; [lia|].
  destruct k as [|k]; simpl paint; simpl nth.
  - now rewrite Z.add_0_r.
  - rewrite IH by lia.
    replace (i + 1 + Z.of_nat k) with (i + Z.of_nat (S k)) by lia.
    reflexivity.
Qed.

Lemma zrange_In first count i :
  In i (zrange first count) <-> first <= i < first + count.
Proof.
  unfold zrange; rewrite in_map_iff; split.
  - intros [k [<- Hk]]. apply in_seq in Hk. lia.
  - intros H. exists (Z.to_nat (i - first)); split; [lia|].
    apply in_seq. lia.
Qed.

Lemma fill_length c first count st :
  List.length (pixels (fill c first count st)) = List.length (pixels st).
Proof.
  unfold fill. destruct (LEDCLOCK_COUNT <=? u16 first); [reflexivity|].
  simpl. apply paint_length.
Qed.

(** A [fill] whose range lies on the strip is not clipped. *)
Lemma pixel_fill c first count st i :
  List.length (pixels st) = Z.to_nat LEDCLOCK_COUNT ->
  0 <= first -> 0 < count -> first + count <= LEDCLOCK_COUNT ->
  pixel (fill c first count st) i =
    if covers (Fill c first count) i then c else pixel st i.
Proof.
  unfold LEDCLOCK_COUNT; intros Hlen Hf Hc Hfc.
  unfold fill, u16, LEDCLOCK_COUNT.
  rewrite !(Z.mod_small first), !(Z.mod_small count), !(Z.mod_small (first + count)) by lia.
  destruct (Z.leb_spec 86 first); [lia|].
  destruct (Z.eqb_spec count 0); [lia|].
  destruct (Z.ltb_spec 86 (first + count)); [lia|].
  unfold pixel, covers; simpl pixels.
  destruct (Z.ltb_spec i 0).
  - destruct (Z.leb_spec first i); [lia|reflexivity].
  - destruct (Nat.lt_ge_cases (Z.to_nat i) (List.length (pixels st))) as [Hi|Hi].
    + rewrite paint_nth by exact Hi.
      rewrite Z.add_0_l, Z2Nat.id by lia. reflexivity.
    + rewrite !nth_overflow by (rewrite ?paint_length; lia).
      destruct (Z.leb_spec first i); destruct (Z.ltb_spec i (first + count));
        simpl; try reflexivity; lia.
Qed.

Lemma run_app ops1 ops2 st : run (ops1 ++ ops2) st = run ops2 (run ops1 st).
Proof. apply fold_left_app. Qed.

Lemma run_cons op ops st : run (op :: ops) st = run ops (exec op st).
Proof. reflexivity. Qed.

(** Fills of one colour, all on the strip: a slot holds the colour when
    some fill covers it, and what it held before otherwise. *)
Lemma pixel_run_fills c ops : forall st i,
  List.length (pixels st) = Z.to_nat LEDCLOCK_COUNT ->
  Forall (fillWithin c) ops ->
  List.length (pixels (run ops st)) = Z.to_nat LEDCLOCK_COUNT
  /\ pixel (run ops st) i = if covered ops i then c else pixel st i.
Proof.
  induction ops as [|op ops IH]; intros st i Hlen Hall.
  - split; [exact Hlen|reflexivity].
  - inversion Hall as [|? ? Hop Hops]; subst.
    destruct op as [| |c' f n| |]; simpl in Hop; try contradiction.
    destruct Hop as (-> & Hf & Hn & Hfn).
    rewrite run_cons. simpl exec.
    assert (Hlen' : List.length (pixels (fill c f n st)) = Z.to_nat LEDCLOCK_COUNT)
      by (rewrite fill_length; exact Hlen).
    destruct (IH (fill c f n st) i Hlen' Hops) as [HL HP].
    split; [exact HL|].
    rewrite HP, pixel_fill by assumption.
    unfold covered; simpl existsb. fold (covered ops i).
    destruct (covered ops i); [now rewrite orb_true_r|].
    now rewrite orb_false_r.
Qed.

(** The buffer after a sequence of calls depends on the buffer before it
    only. *)
Lemma run_pixels_ext ops : forall st1 st2,
  pixels st1 = pixels st2 -> pixels (run ops st1) = pixels (run ops st2).
Proof.
  induction ops as [|op ops IH]; intros st1 st2 H; [exact H|].
  rewrite !run_cons. apply IH.
  destruct op; simpl; try assumption; try reflexivity.
  unfold fill. destruct (LEDCLOCK_COUNT <=? u16 first); [assumption|].
  simpl. now rewrite H.
Qed.

End DriverFacts.

(** ** Digits *)

Section DigitFacts.

Variables base c : Z.

(** Case analysis on the scrutinee of [displayNumber]'s switch. *)
Ltac switch_cases d :=
  destruct d as [|p|p]; try reflexivity;
  repeat (destruct p as [p|p|]; try reflexivity).

(** [displayNumber] issues one fill per segment of the table's row, in the
    row's order; outside 0..9 both are empty. *)
Lemma displayNumber_table d :
  displayNumber d base c =
    map (fun s => Fill c (base + segmentOffsets s) 3) (digitSegments d).
Proof.
  switch_cases d; cbn; rewrite Z.add_0_r; reflexivity.
Qed.

Lemma displayNumber_default d : d < 0 \/ 9 < d -> displayNumber d base c = [].
Proof.
  intros H. switch_cases d; lia.
Qed.

Lemma segmentOffsets_bounds s : 0 <= segmentOffsets s <= 18.
Proof. destruct s; simpl; lia. Qed.

Lemma covered_displayNumber d i :
  covered (displayNumber d base c) i = litBy d base i.
Proof.
  rewrite displayNumber_table. unfold covered, litBy.
  induction (digitSegments d) as [|s l IH]; [reflexivity|].
  simpl. now rewrite IH.
Qed.

Lemma litBy_segment d i :
  litBy d base i = true <->
  exists s, In s (digitSegments d)
            /\ base + segmentOffsets s <= i < base + segmentOffsets s + 3.
Proof.
  unfold litBy. rewrite existsb_exists.
  split; intros [s [Hs H]]; exists s; split; try assumption;
    unfold inSegment in *.
  - apply andb_true_iff in H. lia.
  - apply andb_true_iff. lia.
Qed.

Lemma litBy_slot d i : litBy d base i = true -> base <= i < base + 21.
Proof.
  intros H. apply litBy_segment in H. destruct H as [s [_ H]].
  pose proof (segmentOffsets_bounds s). lia.
Qed.

Lemma targets_displayNumber d i :
  In i (targets (displayNumber d base c)) <-> litBy d base i = true.
Proof.
  rewrite displayNumber_table, litBy_segment.
  unfold targets. rewrite in_flat_map. split.
  - intros [op [Hop Hi]]. apply in_map_iff in Hop.
    destruct Hop as [s [<- Hs]]. unfold writes in Hi. apply zrange_In in Hi.
    exists s. split; [assumption|lia].
  - intros [s [Hs Hi]]. exists (Fill c (base + segmentOffsets s) 3).
    split; [apply in_map_iff; exists s; split; [reflexivity|assumption]|].
    unfold writes. apply zrange_In. lia.
Qed.

Lemma displayNumber_within d :
  0 <= base -> base + 21 <= LEDCLOCK_COUNT ->
  Forall (fillWithin c) (displayNumber d base c).
Proof.
  intros Hb Hb'. rewrite displayNumber_table. apply Forall_forall.
  intros op Hop. apply in_map_iff in Hop. destruct Hop as [s [<- _]].
  pose proof (segmentOffsets_bounds s). simpl. lia.
Qed.

End DigitFacts.

(** C3. For every digit 0..9 and every base offset, [displayNumber] issues
    exactly the fills of the table's row for that digit: one run of 3 LEDs per
    active segment, starting at the base plus the segment's offset, and no
    other.  The LED indices it asks for are those and only those; on a slot
    that lies on the strip a LED ends with the colour when it is in an active
    segment and is left as it was otherwise.  Digit 0 issues six fills and
    none of them reaches the middle segment. *)
Theorem displayNumber_lights_exactly d base c :
  0 <= d <= 9 ->
  displayNumber d base c =
    map (fun s => Fill c (base + segmentOffsets s) 3) (digitSegments d)
  /\ (forall i,
        In i (targets (displayNumber d base c)) <->
        exists s, In s (digitSegments d)
                  /\ base + segmentOffsets s <= i < base + segmentOffsets s + 3)
  /\ (forall st i,
        List.length (pixels st) = Z.to_nat LEDCLOCK_COUNT ->
        0 <= base -> base + 21 <= LEDCLOCK_COUNT ->
        pixel (run (displayNumber d base c) st) i =
          if litBy d base i then c else pixel st i)
  /\ (List.length (displayNumber 0 base c) = 6%nat
      /\ forall i, base + 18 <= i < base + 21 ->
                   ~ In i (targets (displayNumber 0 base c))).
Proof.
  intros _. split; [apply displayNumber_table|]. split; [|split].
  - intros i. rewrite targets_displayNumber. apply litBy_segment.
  - intros st i Hlen Hb Hb'.
    destruct (pixel_run_fills c (displayNumber d base c) st i Hlen
                (displayNumber_within base c d Hb Hb')) as [_ HP].
    rewrite HP, covered_displayNumber. reflexivity.
  - split; [reflexivity|]. intros i Hi Hin.
    apply targets_displayNumber, litBy_segment in Hin.
    destruct Hin as [s [Hs H]].
    simpl in Hs.
    repeat (destruct Hs as [<-|Hs]; [simpl in H; lia|]). contradiction.
Qed.

Lemma displayNumber_lights_exactly_witness :
  0 <= 8 <= 9
  /\ displayNumber 8 65 255 =
       map (fun s => Fill 255 (65 + segmentOffsets s) 3) (digitSegments 8)
  /\ pixel (run (displayNumber 8 65 255) stripClock0) 85 = 255
  /\ pixel (run (displayNumber 0 65 255) stripClock0) 85 = 0.
Proof.
  assert (H8 : 0 <= 8 <= 9) by lia.
  assert (H0 : 0 <= 0 <= 9) by lia.
  split; [exact H8|].
  destruct (displayNumber_lights_exactly 8 65 255 H8) as (E & _ & P & _).
  destruct (displayNumber_lights_exactly 0 65 255 H0) as (_ & _ & P0 & _).
  split; [exact E|]. split.
  - rewrite P; [reflexivity | reflexivity | lia | unfold LEDCLOCK_COUNT; lia].
  - rewrite P0; [reflexivity | reflexivity | lia | unfold LEDCLOCK_COUNT; lia].
Defined.

(** C5. For a digit value outside 0..9, whatever the base offset,
    [displayNumber] issues no driver call: no LED index is asked for, so
    nothing can fall outside the strip, and the strip is left exactly as it
    was. *)
Theorem displayNumber_out_of_range d base c st :
  d < 0 \/ 9 < d ->
  displayNumber d base c = []
  /\ targets (displayNumber d base c) = []
  /\ run (displayNumber d base c) st = st.
Proof.
  intros H. rewrite (displayNumber_default base c d H).
  repeat split.
Qed.

Lemma displayNumber_out_of_range_witness :
  (10 < 0 \/ 9 < 10)
  /\ displayNumber 10 65 255 = []
  /\ run (displayNumber (-1) 80 255) stripClock0 = stripClock0.
Proof.
  assert (H10 : 10 < 0 \/ 9 < 10) by (right; lia).
  assert (Hm : -1 < 0 \/ 9 < -1) by (left; lia).
  split; [exact H10|]. split.
  - exact (proj1 (displayNumber_out_of_range 10 65 255 stripClock0 H10)).
  - exact (proj2 (proj2 (displayNumber_out_of_range (-1) 80 255 stripClock0 Hm))).
Defined.

(** ** Frames *)

Section FrameFacts.

Variables h m c : Z.

Lemma displayTheTime_frameFills :
  displayTheTime h m c = Clear :: frameFills h m c ++ [Latch].
Proof.
  unfold displayTheTime, frameFills. cbn [app]. f_equal.
  now rewrite <- !app_assoc.
Qed.

Lemma frameFills_within : Forall (fillWithin c) (frameFills h m c).
Proof.
  assert (HD : forall d b, In b slotBases -> Forall (fillWithin c) (displayNumber d b c)).
  { intros d b Hb. apply displayNumber_within;
      unfold LEDCLOCK_COUNT; simpl in Hb; lia. }
  unfold frameFills.
  apply Forall_app; split; [apply HD; simpl; tauto|].
  apply Forall_app; split; [apply HD; simpl; tauto|].
  apply Forall_app; split.
  - repeat constructor; unfold LEDCLOCK_COUNT; lia.
  - destruct (9 <? h); [apply Forall_app; split|]; apply HD; simpl; tauto.
Qed.

Lemma covered_app ops1 ops2 i :
  covered (ops1 ++ ops2) i = covered ops1 i || covered ops2 i.
Proof. apply existsb_app. Qed.

Lemma covered_frameFills i :
  covered (frameFills h m c) i =
    litBy (Z.rem m 10) 0 i
    || litBy (Z.quot m 10) 21 i
    || (i =? 42) || (i =? 43)
    || (if 9 <? h then litBy (Z.quot h 10) 65 i || litBy (Z.rem h 10) 44 i
        else litBy h 44 i).
Proof.
  unfold frameFills. rewrite !covered_app, !covered_displayNumber.
  assert (Hsep : covered [Fill c 42 1; Fill c 43 1] i = (i =? 42) || (i =? 43)).
  { unfold covered, covers; simpl existsb.
    destruct (Z.eqb_spec i 42); destruct (Z.eqb_spec i 43);
      destruct (Z.leb_spec 42 i); destruct (Z.ltb_spec i (42 + 1));
      destruct (Z.leb_spec 43 i); destruct (Z.ltb_spec i (43 + 1));
      simpl; try reflexivity; lia. }
  rewrite Hsep.
  destruct (9 <? h); rewrite ?covered_app, ?covered_displayNumber;
    rewrite !orb_assoc; reflexivity.
Qed.

Lemma pixel_clear st i : pixel (exec Clear st) i = 0.
Proof.
  unfold pixel; cbn [exec pixels]. destruct (i <? 0); [reflexivity|].
  apply nth_repeat.
Qed.

(** After composing, a LED holds the colour when a fill of the frame covers
    it and is off otherwise, whatever the strip held before; [show] latches
    that buffer. *)
Lemma pixel_displayTheTime st i :
  pixel (run (displayTheTime h m c) st) i =
    if covered (frameFills h m c) i then c else 0.
Proof.
  rewrite displayTheTime_frameFills, run_cons, run_app.
  assert (Hlen : List.length (pixels (exec Clear st)) = Z.to_nat LEDCLOCK_COUNT)
    by (cbn [exec pixels]; apply repeat_length).
  destruct (pixel_run_fills c (frameFills h m c) (exec Clear st) i Hlen
              frameFills_within) as [_ HP].
  change (pixel (run [Latch] (run (frameFills h m c) (exec Clear st))) i)
    with (pixel (run (frameFills h m c) (exec Clear st)) i).
  now rewrite HP, pixel_clear.
Qed.

Lemma shown_displayTheTime st :
  shown (run (displayTheTime h m c) st) = pixels (run (displayTheTime h m c) st).
Proof.
  rewrite displayTheTime_frameFills, run_cons, run_app. reflexivity.
Qed.

Lemma targets_app ops1 ops2 :
  targets (ops1 ++ ops2) = targets ops1 ++ targets ops2.
Proof. apply flat_map_app. Qed.

Lemma targets_frameFills i :
  In i (targets (frameFills h m c)) -> covered (frameFills h m c) i = true.
Proof.
  unfold targets, covered. rewrite in_flat_map, existsb_exists.
  intros [op [Hop Hi]]. exists op. split; [assumption|].
  pose proof frameFills_within as HW. rewrite Forall_forall in HW.
  specialize (HW op Hop). destruct op; simpl in HW; try contradiction.
  unfold writes in Hi. apply zrange_In in Hi.
  unfold covers. apply andb_true_iff. lia.
Qed.

End FrameFacts.

Lemma frameLit_covered h m c i :
  0 <= h -> 0 <= m -> covered (frameFills h m c) i = frameLit h m i.
Proof.
  intros Hh Hm. rewrite covered_frameFills. unfold frameLit.
  rewrite !Z.rem_mod_nonneg, !Z.quot_div_nonneg by lia.
  reflexivity.
Qed.

Lemma frameLit_tens_slot h m i :
  0 <= m -> h <= 9 -> 65 <= i -> frameLit h m i = false.
Proof.
  intros Hm Hh Hi. unfold frameLit.
  destruct (Z.ltb_spec 9 h); [lia|].
  destruct (litBy (m mod 10) 0 i) eqn:E1; [apply litBy_slot in E1; lia|].
  destruct (litBy (m / 10) 21 i) eqn:E2; [apply litBy_slot in E2; lia|].
  destruct (litBy h 44 i) eqn:E3; [apply litBy_slot in E3; lia|].
  destruct (Z.eqb_spec i 42); [lia|].
  destruct (Z.eqb_spec i 43); [lia|].
  reflexivity.
Qed.

(** C4. For an hour in 0..23 and a minute in 0..59, [displayTheTime] clears
    the strip, renders minute mod 10 at offset 0 and minute div 10 at offset
    21, fills LEDs 42 and 43 with the colour, renders hour div 10 at 65 and
    hour mod 10 at 44 when the hour exceeds 9 and the hour alone at 44
    otherwise, and latches the frame.  The resulting buffer, whatever the
    strip held before, has the colour on exactly the LEDs of that layout and
    0 elsewhere; LEDs 42 and 43 hold the colour; for an hour up to 9 every
    LED of the slot at 65 is off. *)
Theorem displayTheTime_composes h m c st :
  0 <= h <= 23 -> 0 <= m <= 59 ->
  displayTheTime h m c =
    [Clear]
      ++ displayNumber (m mod 10) 0 c
      ++ displayNumber (m / 10) 21 c
      ++ [Fill c 42 1; Fill c 43 1]
      ++ (if 9 <? h
          then displayNumber (h / 10) 65 c ++ displayNumber (h mod 10) 44 c
          else displayNumber h 44 c)
      ++ [Latch]
  /\ (forall i,
        pixel (run (displayTheTime h m c) st) i =
          if frameLit h m i then c else 0)
  /\ pixel (run (displayTheTime h m c) st) 42 = c
  /\ pixel (run (displayTheTime h m c) st) 43 = c
  /\ (h <= 9 ->
      forall i, 65 <= i < 86 -> pixel (run (displayTheTime h m c) st) i = 0)
  /\ shown (run (displayTheTime h m c) st)
     = pixels (run (displayTheTime h m c) st).
Proof.
  intros Hh Hm.
  assert (HP : forall i,
             pixel (run (displayTheTime h m c) st) i =
               if frameLit h m i then c else 0).
  { intros i. rewrite pixel_displayTheTime, frameLit_covered by lia.
    reflexivity. }
  split; [|split; [exact HP|]].
  - unfold displayTheTime.
    rewrite !Z.rem_mod_nonneg, !Z.quot_div_nonneg by lia. reflexivity.
  - assert (H42 : frameLit h m 42 = true).
    { unfold frameLit. change (42 =? 42) with true.
      now rewrite orb_true_r. }
    assert (H43 : frameLit h m 43 = true).
    { unfold frameLit. change (43 =? 43) with true.
      now rewrite orb_true_r. }
    rewrite !HP, H42, H43. repeat split.
    + intros Hh9 i Hi. rewrite HP, frameLit_tens_slot by lia. reflexivity.
    + apply shown_displayTheTime.
Qed.

Lemma displayTheTime_composes_witness :
  0 <= 9 <= 23 /\ 0 <= 5 <= 59
  /\ displayTheTime 9 5 255 =
       [Clear] ++ displayNumber 5 0 255 ++ displayNumber 0 21 255
         ++ [Fill 255 42 1; Fill 255 43 1] ++ displayNumber 9 44 255 ++ [Latch]
  /\ pixel (run (displayTheTime 9 5 255) stripClock0) 42 = 255
  /\ pixel (run (displayTheTime 9 5 255) stripClock0) 70 = 0.
Proof.
  assert (Hh : 0 <= 9 <= 23) by lia.
  assert (Hm : 0 <= 5 <= 59) by lia.
  destruct (displayTheTime_composes 9 5 255 stripClock0 Hh Hm)
    as (E & _ & P42 & _ & P65 & _).
  split; [exact Hh|]. split; [exact Hm|]. split; [exact E|].
  split; [exact P42|]. apply P65; lia.
Defined.

(** C7. Frame composition does not depend on what the buffer held: from any
    two strips the same hour, minute and colour give the same buffer, and
    composing the frame again on the result gives that buffer again. *)
Theorem displayTheTime_deterministic h m c st1 st2 :
  pixels (run (displayTheTime h m c) st1) = pixels (run (displayTheTime h m c) st2)
  /\ pixels (run (displayTheTime h m c) (run (displayTheTime h m c) st1))
     = pixels (run (displayTheTime h m c) st1)
  /\ shown (run (displayTheTime h m c) (run (displayTheTime h m c) st1))
     = shown (run (displayTheTime h m c) st1).
Proof.
  assert (H : forall s s',
             pixels (run (displayTheTime h m c) s)
             = pixels (run (displayTheTime h m c) s')).
  { intros s s'. rewrite displayTheTime_frameFills, !run_cons.
    apply run_pixels_ext. reflexivity. }
  split; [apply H|]. split; [apply H|].
  rewrite !shown_displayTheTime. apply H.
Qed.

(** C9. For an hour in 0..23 and a minute in 0..59 every LED index written
    while composing a frame lies in 0..85.  A digit rendered at a base offset
    asks only for indices inside the 21 LEDs from that base; the four slots at
    0, 21, 44 and 65 are pairwise disjoint and contain neither 42 nor 43; and
    index 85 is reached (by the middle segment of the slot at 65). *)
Theorem displayTheTime_writes_on_strip h m c :
  0 <= h <= 23 -> 0 <= m <= 59 ->
  (forall i, In i (targets (displayTheTime h m c)) -> 0 <= i <= 85)
  /\ (forall d b i, In i (targets (displayNumber d b c)) -> b <= i < b + 21)
  /\ (forall b1 b2 d1 d2 i,
        In b1 slotBases -> In b2 slotBases -> b1 <> b2 ->
        In i (targets (displayNumber d1 b1 c)) ->
        ~ In i (targets (displayNumber d2 b2 c)))
  /\ (forall b d i,
        In b slotBases -> In i (targets (displayNumber d b c)) ->
        i <> 42 /\ i <> 43)
  /\ In 85 (targets (displayNumber (Z.quot 20 10) 65 c))
  /\ covered (displayTheTime 20 m c) 85 = true.
Proof.
  intros Hh Hm.
  assert (HS : forall d b i, In i (targets (displayNumber d b c)) -> b <= i < b + 21).
  { intros d b i Hi. apply targets_displayNumber in Hi.
    now apply litBy_slot in Hi. }
  split; [|split; [exact HS|split; [|split; [|split]]]].
  - intros i Hi. rewrite displayTheTime_frameFills in Hi.
    change (Clear :: frameFills h m c ++ [Latch])
      with ([Clear] ++ frameFills h m c ++ [Latch]) in Hi.
    rewrite !targets_app in Hi. apply in_app_or in Hi. destruct Hi as [Hi|Hi].
    + unfold targets in Hi; cbn [flat_map writes] in Hi.
      rewrite app_nil_r in Hi. apply zrange_In in Hi.
      unfold LEDCLOCK_COUNT in Hi. lia.
    + apply in_app_or in Hi. destruct Hi as [Hi|Hi]; [|contradiction].
      apply targets_frameFills in Hi. rewrite frameLit_covered in Hi by lia.
      unfold frameLit in Hi.
      repeat (apply orb_true_iff in Hi; destruct Hi as [Hi|Hi]);
        try (apply litBy_slot in Hi; lia);
        try (apply Z.eqb_eq in Hi; lia).
      destruct (9 <? h).
      * apply orb_true_iff in Hi; destruct Hi as [Hi|Hi];
          apply litBy_slot in Hi; lia.
      * apply litBy_slot in Hi; lia.
  - intros b1 b2 d1 d2 i Hb1 Hb2 Hne H1 H2.
    apply HS in H1. apply HS in H2. simpl in Hb1, Hb2. lia.
  - intros b d i Hb Hi. apply HS in Hi. simpl in Hb. lia.
  - apply targets_displayNumber. reflexivity.
  - rewrite displayTheTime_frameFills.
    change (Clear :: frameFills 20 m c ++ [Latch])
      with ([Clear] ++ frameFills 20 m c ++ [Latch]).
    rewrite !covered_app, covered_frameFills.
    change (9 <? 20) with true. cbv iota.
    replace (litBy (Z.quot 20 10) 65 85) with true by reflexivity.
    rewrite !orb_true_r. reflexivity.
Qed.

Lemma displayTheTime_writes_on_strip_witness :
  0 <= 23 <= 23 /\ 0 <= 59 <= 59
  /\ forall i, In i (targets (displayTheTime 23 59 255)) -> 0 <= i <= 85.
Proof.
  assert (Hh : 0 <= 23 <= 23) by lia.
  assert (Hm : 0 <= 59 <= 59) by lia.
  split; [exact Hh|]. split; [exact Hm|].
  exact (proj1 (displayTheTime_writes_on_strip 23 59 255 Hh Hm)).
Defined.

(** ** The MQTT callback *)

Section CallbackFacts.

Variables (topic : string) (payload : list ascii).

Lemma brightnessBranch_colour g :
  mqttColorActive (brightnessBranch payload g) = mqttColorActive g
  /\ mqttColor (brightnessBranch payload g) = mqttColor g.
Proof.
  unfold brightnessBranch.
  destruct (0 <? Z.of_nat (List.length payload)); [|now split].
  destruct ((0 <=? atoi (copyInto 5 payload)) && (atoi (copyInto 5 payload) <=? 255));
    now split.
Qed.

(** What the brightness branch leaves in [brightness]: the parsed value
    when it passes the range test, the old value otherwise. *)
Lemma brightnessBranch_brightness g :
  brightness (brightnessBranch payload g) =
    if (0 <? Z.of_nat (List.length payload))
       && (0 <=? atoi (copyInto 5 payload))
       && (atoi (copyInto 5 payload) <=? 255)
    then atoi (copyInto 5 payload) else brightness g.
Proof.
  unfold brightnessBranch.
  destruct (0 <? Z.of_nat (List.length payload)); [|reflexivity].
  destruct (0 <=? atoi (copyInto 5 payload)); [|reflexivity].
  destruct (atoi (copyInto 5 payload) <=? 255); reflexivity.
Qed.

Lemma brightnessBranch_range g :
  0 <= brightness g <= 255 ->
  0 <= brightness (brightnessBranch payload g) <= 255.
Proof.
  intros H. rewrite brightnessBranch_brightness.
  destruct (0 <? Z.of_nat (List.length payload)); [|exact H].
  destruct (Z.leb_spec 0 (atoi (copyInto 5 payload))); [|exact H].
  destruct (Z.leb_spec (atoi (copyInto 5 payload)) 255); [|exact H].
  simpl. lia.
Qed.

Lemma brightnessBranch_rest g : sameSettings g (brightnessBranch payload g).
Proof.
  unfold brightnessBranch, sameSettings.
  destruct (0 <? Z.of_nat (List.length payload)); [|now repeat split].
  destruct ((0 <=? atoi (copyInto 5 payload)) && (atoi (copyInto 5 payload) <=? 255));
    now repeat split.
Qed.

(** The two tails of [mqttCallback]: with and without the brightness
    branch. *)
Ltac callback_cases g :=
  unfold mqttCallback;
  destruct (String.eqb topic (stored_mqtt_color_topic g));
  [ destruct (Z.of_nat (List.length payload) =? 0);
    [ | destruct (parseColor payload) as [v|];
        match goal with
        | |- context [if ?b then brightnessBranch _ _ else _] => destruct b
        end ]
  | destruct (String.eqb topic (stored_mqtt_brightness_topic g)) ].

(** The override after a message: decided by the colour branch alone. *)
Lemma mqttCallback_override g :
  mqttColorActive (mqttCallback topic payload g)
  = (if String.eqb topic (stored_mqtt_color_topic g) then
       match parseColor payload with
       | Some _ => negb (Z.of_nat (List.length payload) =? 0)
       | None => false
       end
     else mqttColorActive g)
  /\ mqttColor (mqttCallback topic payload g)
     = (if String.eqb topic (stored_mqtt_color_topic g)
           && negb (Z.of_nat (List.length payload) =? 0)
        then match parseColor payload with
             | Some v => v
             | None => mqttColor g
             end
        else mqttColor g).
Proof.
  callback_cases g;
    rewrite ?(proj1 (brightnessBranch_colour _)),
            ?(proj2 (brightnessBranch_colour _));
    simpl; try (split; reflexivity).
  destruct (parseColor payload); split; reflexivity.
Qed.

Lemma mqttCallback_range g :
  0 <= brightness g <= 255 ->
  0 <= brightness (mqttCallback topic payload g) <= 255.
Proof.
  intros H. callback_cases g;
    try apply brightnessBranch_range; simpl; exact H.
Qed.

Lemma mqttCallback_rest g : sameSettings g (mqttCallback topic payload g).
Proof.
  callback_cases g;
    try match goal with
      | |- sameSettings _ (brightnessBranch _ ?x) =>
          pose proof (brightnessBranch_rest x) as HB;
          unfold sameSettings in *; simpl in HB; exact HB
      end;
    unfold sameSettings; simpl; repeat split.
Qed.

(** A message on the brightness topic runs the brightness branch, whether
    or not the colour branch ran before it. *)
Lemma mqttCallback_brightness g :
  topic = stored_mqtt_brightness_topic g ->
  payload <> [] ->
  brightness (mqttCallback topic payload g) =
    if (0 <=? atoi (copyInto 5 payload)) && (atoi (copyInto 5 payload) <=? 255)
    then atoi (copyInto 5 payload) else brightness g.
Proof.
  intros -> Hne.
  assert (Hlen : (0 <? Z.of_nat (List.length payload)) = true).
  { destruct payload; [contradiction|]. apply Z.ltb_lt. simpl List.length. lia. }
  assert (Hlen0 : (Z.of_nat (List.length payload) =? 0) = false).
  { apply Z.ltb_lt in Hlen. apply Z.eqb_neq. lia. }
  unfold mqttCallback. rewrite Hlen0.
  destruct (String.eqb (stored_mqtt_brightness_topic g) (stored_mqtt_color_topic g)).
  - destruct (parseColor payload); simpl stored_mqtt_brightness_topic;
      rewrite String.eqb_refl, brightnessBranch_brightness, Hlen; reflexivity.
  - rewrite String.eqb_refl, brightnessBranch_brightness, Hlen. reflexivity.
Qed.

(** A message on another topic leaves the brightness alone. *)
Lemma mqttCallback_brightness_other g :
  String.eqb topic (stored_mqtt_brightness_topic g) = false ->
  brightness (mqttCallback topic payload g) = brightness g.
Proof.
  intros H. unfold mqttCallback.
  destruct (String.eqb topic (stored_mqtt_color_topic g)).
  - destruct (Z.of_nat (List.length payload) =? 0); [reflexivity|].
    destruct (parseColor payload); simpl stored_mqtt_brightness_topic;
      rewrite H; reflexivity.
  - rewrite H. reflexivity.
Qed.

End CallbackFacts.

(** ** One pass of the loop *)

Section LoopFacts.

Variables (e : Cycle) (g : Globals).

Lemma stripCalls_app evs1 evs2 :
  stripCalls (evs1 ++ evs2) = stripCalls evs1 ++ stripCalls evs2.
Proof. apply flat_map_app. Qed.

Lemma stripCalls_strip ops : stripCalls (map EvStrip ops) = ops.
Proof.
  induction ops as [|op ops IH]; [reflexivity|].
  change (stripCalls (map EvStrip (op :: ops)))
    with (op :: stripCalls (map EvStrip ops)).
  now rewrite IH.
Qed.

Lemma brightnessCalls_app evs1 evs2 :
  brightnessCalls (evs1 ++ evs2) = brightnessCalls evs1 ++ brightnessCalls evs2.
Proof. apply flat_map_app. Qed.

Lemma brightnessCalls_fills c ops :
  Forall (fillWithin c) ops -> brightnessCalls (map EvStrip ops) = [].
Proof.
  induction 1 as [|op ops Hop _ IH]; [reflexivity|].
  destruct op; simpl in Hop; try contradiction. exact IH.
Qed.

Lemma brightnessCalls_frame h m c :
  brightnessCalls (map EvStrip (displayTheTime h m c)) = [].
Proof.
  rewrite displayTheTime_frameFills.
  change (Clear :: frameFills h m c ++ [Latch])
    with ([Clear] ++ frameFills h m c ++ [Latch]).
  rewrite !map_app, !brightnessCalls_app.
  rewrite (brightnessCalls_fills c (frameFills h m c) (frameFills_within h m c)).
  reflexivity.
Qed.

(** The stages of a pass, named as in [loop]. *)
Ltac loop_cases :=
  unfold loop, connectToWiFi;
  destruct (wifi_at_entry e); destruct (wifi_reconnected e);
  cbn [negb set_wifiConnected lastTimeSync];
  match goal with
  | |- context [syncInterval <? ?x] => destruct (syncInterval <? x) eqn:Hsync
  end;
  destruct (local_time e) as [[[hh mm] ss]|];
  destruct (wifi_at_bus e); destruct (bus_connected e); cbn [negb];
  destruct (inbound e) as [[topic payload]|]; cbn [fst snd].

(** Every pass ends by setting the brightness and composing one frame with
    the colour source chosen from the globals as the pass leaves them. *)
Lemma loop_frame :
  stripCalls (snd (loop e g)) =
    SetBrightness (brightness (fst (loop e g)))
      :: displayTheTime (currentHour (fst (loop e g)))
           (currentMinute (fst (loop e g))) (displayColor (fst (loop e g))).
Proof.
  loop_cases; rewrite !stripCalls_app, stripCalls_strip;
    cbn [stripCalls flat_map app]; rewrite ?app_nil_r; reflexivity.
Qed.

Lemma loop_brightnessCalls :
  brightnessCalls (snd (loop e g)) = [brightness (fst (loop e g))].
Proof.
  loop_cases; rewrite !brightnessCalls_app, ?map_cons;
    change (brightnessCalls (EvStrip (SetBrightness ?b) :: ?l))
      with (b :: brightnessCalls l);
    rewrite brightnessCalls_frame; reflexivity.
Qed.

Lemma loop_range :
  0 <= brightness g <= 255 -> 0 <= brightness (fst (loop e g)) <= 255.
Proof.
  intros H. loop_cases; try apply mqttCallback_range; simpl; exact H.
Qed.

(** Only a dispatched message on the brightness topic changes
    [brightness]. *)
Lemma loop_brightness_change :
  brightness (fst (loop e g)) <> brightness g ->
  exists payload,
    wifi_at_bus e = true
    /\ inbound e = Some (stored_mqtt_brightness_topic g, payload).
Proof.
  loop_cases; intros H; try (exfalso; apply H; reflexivity);
    match type of H with
    | brightness (mqttCallback ?t ?p ?x) <> _ =>
        destruct (String.eqb t (stored_mqtt_brightness_topic x)) eqn:E;
        [ apply String.eqb_eq in E; simpl in E; subst t; exists p; split; reflexivity
        | exfalso; apply H; rewrite mqttCallback_brightness_other by exact E;
          reflexivity ]
    end.
Qed.

Lemma loop_settings :
  stored_mqtt_color_topic (fst (loop e g)) = stored_mqtt_color_topic g
  /\ stored_mqtt_brightness_topic (fst (loop e g)) = stored_mqtt_brightness_topic g
  /\ clockColour (fst (loop e g)) = clockColour g.
Proof.
  loop_cases;
    try match goal with
      | |- context [mqttCallback ?t ?p ?x] =>
          destruct (mqttCallback_rest t p x) as (_ & H1 & H2 & _ & H3 & _);
          rewrite H1, H2, H3
      end;
    repeat split.
Qed.

(** The resync test and its two effects. *)
Lemma loop_sync :
  (In EvConfigTzTime (snd (loop e g))
   <-> (syncInterval <? u32 (millis_at_check e - lastTimeSync g)) = true)
  /\ lastTimeSync (fst (loop e g))
     = if syncInterval <? u32 (millis_at_check e - lastTimeSync g)
       then millis_at_update e else lastTimeSync g.
Proof.
  assert (HN : forall ops, ~ In EvConfigTzTime (map EvStrip ops)).
  { intros ops H. apply in_map_iff in H. destruct H as [op [H _]]. discriminate. }
  loop_cases;
    try match goal with
      | |- context [mqttCallback ?t ?p ?x] =>
          destruct (mqttCallback_rest t p x) as (_ & _ & _ & H1 & _);
          rewrite H1
      end;
    simpl lastTimeSync;
    (split; [|reflexivity]);
    rewrite !in_app_iff; simpl In;
    (split; [intros H; try reflexivity;
             repeat (destruct H as [H|H]; try discriminate; try contradiction;
                     try (now apply HN in H))
            | intros H; try discriminate; tauto]).
Qed.


End LoopFacts.

(** ** Colour messages *)

(** What being a hex digit excludes: white space, '#', the signs, the 'x' of
    a prefix and the terminator. *)
Lemma hex_char c :
  isHexDigit c = true ->
  exists v, digitIn 16 c = Some v /\ digitValue c = Some v /\ 0 <= v < 16
    /\ isspace c = false
    /\ isChar c 35 = false /\ isChar c 43 = false /\ isChar c 45 = false
    /\ isChar c 88 = false /\ isChar c 120 = false
    /\ Ascii.eqb c NUL = false.
Proof.
  destruct c as [[] [] [] [] [] [] [] []]; vm_compute; intros H;
    try discriminate;
    match goal with
    | |- exists v, Some ?x = Some v /\ _ =>
        exists x; repeat split; discriminate
    end.
Qed.

(** Six hex digits, with or without a leading '#', pass the test of the
    colour branch with their value, which fits 24 bits. *)
Lemma parseColor_hex6 l :
  List.length l = 6%nat -> forallb isHexDigit l = true ->
  parseColor l = Some (hexValue l)
  /\ parseColor ("#"%char :: l) = Some (hexValue l)
  /\ 0 <= hexValue l < 2 ^ 24.
Proof.
  intros Hlen Hhex.
  destruct l as [|a [|b [|c [|d [|e [|f [|? ?]]]]]]]; try discriminate.
  simpl in Hhex.
  repeat (apply andb_true_iff in Hhex; destruct Hhex as [? Hhex]).
  destruct (hex_char a)
    as (va & Da & Va & Ra & Sa & A35 & A43 & A45 & _ & _ & A0); [assumption|].
  destruct (hex_char b)
    as (vb & Db & Vb & Rb & _ & _ & _ & _ & B88 & B120 & B0); [assumption|].
  destruct (hex_char c)
    as (vc & Dc & Vc & Rc & _ & _ & _ & _ & _ & _ & C0); [assumption|].
  destruct (hex_char d)
    as (vd & Dd & Vd & Rd & _ & _ & _ & _ & _ & _ & D0); [assumption|].
  destruct (hex_char e)
    as (ve & De & Ve & Re & _ & _ & _ & _ & _ & _ & E0); [assumption|].
  destruct (hex_char f)
    as (vf & Df & Vf & Rf & _ & _ & _ & _ & _ & _ & F0); [assumption|].
  assert (Hv : hexValue [a; b; c; d; e; f]
               = ((((va * 16 + vb) * 16 + vc) * 16 + vd) * 16 + ve) * 16 + vf).
  { unfold hexValue. simpl fold_left. rewrite Va, Vb, Vc, Vd, Ve, Vf. lia. }
  assert (Hr : 0 <= hexValue [a; b; c; d; e; f] < 2 ^ 24) by (rewrite Hv; lia).
  assert (Hs : forall rest,
             strtol ([a; b; c; d; e; f] ++ NUL :: rest) 16
             = (hexValue [a; b; c; d; e; f], NUL :: rest)).
  { intros rest. unfold strtol. cbn [app skipSpace]. rewrite Sa.
    unfold takeSign. rewrite A45, A43.
    unfold takePrefix. change (16 =? 16) with true. cbv iota.
    rewrite B120, B88, andb_false_r. rewrite Da.
    cbn [digits]. rewrite Da, Db, Dc, Dd, De, Df.
    change (digitIn 16 NUL) with (@None Z). cbv iota beta.
    f_equal. rewrite Hv in *. unfold clampLong, LONG_MAX, LONG_MIN.
    match goal with |- context [2147483647 <? ?x] =>
      destruct (Z.ltb_spec 2147483647 x); [lia|];
      destruct (Z.ltb_spec x (-2147483648)); lia
    end. }
  assert (Hl : forall rest, strlen ([a; b; c; d; e; f] ++ NUL :: rest) = 6).
  { intros rest. unfold strlen. cbn [app cstr].
    rewrite A0, B0, C0, D0, E0, F0. reflexivity. }
  assert (Hu : u32 (hexValue [a; b; c; d; e; f]) = hexValue [a; b; c; d; e; f]).
  { unfold u32. apply Z.mod_small. lia. }
  split; [|split; [|exact Hr]].
  - unfold parseColor.
    change (copyInto 8 [a; b; c; d; e; f]) with ([a; b; c; d; e; f] ++ [NUL; NUL]).
    unfold deref. cbn [app hd]. rewrite A35. cbv iota.
    change [a; b; c; d; e; f; NUL; NUL] with ([a; b; c; d; e; f] ++ NUL :: [NUL]).
    rewrite Hs, Hl, Hu. reflexivity.
  - unfold parseColor.
    change (copyInto 8 ("#"%char :: [a; b; c; d; e; f]))
      with ("#"%char :: [a; b; c; d; e; f] ++ [NUL]).
    unfold deref. cbn [app hd tl].
    change (isChar "#" 35) with true. cbv iota.
    change [a; b; c; d; e; f; NUL] with ([a; b; c; d; e; f] ++ NUL :: []).
    rewrite Hs, Hl, Hu. reflexivity.
Qed.

Lemma cstr_app_NUL l rest :
  (List.length (cstr (l ++ NUL :: rest)) <= List.length l)%nat.
Proof.
  induction l as [|c l IH]; simpl; [lia|].
  destruct (Ascii.eqb c NUL); simpl; lia.
Qed.

(** Fewer than six bytes never pass the length test. *)
Lemma parseColor_short payload :
  (List.length payload < 6)%nat -> parseColor payload = None.
Proof.
  intros Hlen. unfold parseColor.
  assert (Hc : copyInto 8 payload
               = payload ++ NUL :: repeat NUL (7 - List.length payload)).
  { unfold copyInto. rewrite firstn_all2 by (simpl; lia).
    replace (8 - List.length payload)%nat
      with (S (7 - List.length payload)) by lia.
    reflexivity. }
  rewrite Hc.
  set (pad := repeat NUL (7 - List.length payload)).
  assert (Hl : strlen (if isChar (deref (payload ++ NUL :: pad)) 35
                       then tl (payload ++ NUL :: pad)
                       else payload ++ NUL :: pad) <> 6).
  { unfold strlen. destruct (isChar (deref (payload ++ NUL :: pad)) 35).
    - destruct payload as [|c p]; simpl tl.
      + subst pad. simpl. lia.
      + pose proof (cstr_app_NUL p pad). simpl in Hlen. lia.
    - pose proof (cstr_app_NUL payload pad). lia. }
  destruct (strtol _ 16) as [v endp].
  apply Z.eqb_neq in Hl. rewrite Hl, andb_false_r. reflexivity.
Qed.

(** On the colour topic: six hex digits, with or without '#', activate the
    override with their value. *)
Lemma mqttCallback_colour_valid g l :
  List.length l = 6%nat -> forallb isHexDigit l = true ->
  (mqttColorActive (mqttCallback (stored_mqtt_color_topic g) l g) = true
   /\ mqttColor (mqttCallback (stored_mqtt_color_topic g) l g) = hexValue l)
  /\ (mqttColorActive
        (mqttCallback (stored_mqtt_color_topic g) ("#"%char :: l) g) = true
      /\ mqttColor
           (mqttCallback (stored_mqtt_color_topic g) ("#"%char :: l) g)
         = hexValue l).
Proof.
  intros Hlen Hhex.
  destruct (parseColor_hex6 l Hlen Hhex) as (P1 & P2 & _).
  destruct (mqttCallback_override (stored_mqtt_color_topic g) l g) as [A1 C1].
  destruct (mqttCallback_override (stored_mqtt_color_topic g) ("#"%char :: l) g)
    as [A2 C2].
  rewrite A1, C1, A2, C2, P1, P2, String.eqb_refl.
  simpl List.length. rewrite Hlen. repeat split.
Qed.

(** On the colour topic: the empty payload, and any payload of fewer than
    six bytes, leave the override inactive. *)
Lemma mqttCallback_colour_clear g payload :
  (List.length payload < 6)%nat ->
  mqttColorActive (mqttCallback (stored_mqtt_color_topic g) payload g) = false.
Proof.
  intros Hlen.
  rewrite (proj1 (mqttCallback_override (stored_mqtt_color_topic g) payload g)).
  rewrite String.eqb_refl, parseColor_short by exact Hlen. reflexivity.
Qed.

(** C1. The colour branch copies at most 7 payload bytes before it tests
    them, and leaves white space, sign and prefix handling to [strtol]: the
    9-byte payload "#FF00FFZZ" is taken as the colour 0xFF00FF, and "-12345"
    activates the override with 0xFFFEDCBB, which is not a 24-bit value.
    Neither is an optional '#' followed by exactly six hex digits. *)
Theorem mqttCallback_colour_accepts_malformed g :
  let overlong := mqttCallback (stored_mqtt_color_topic g) (bytes "#FF00FFZZ") g in
  let signed := mqttCallback (stored_mqtt_color_topic g) (bytes "-12345") g in
  (mqttColorActive overlong = true /\ mqttColor overlong = 16711935)
  /\ (mqttColorActive signed = true /\ mqttColor signed = 4294892731).
Proof.
  cbv zeta.
  destruct (mqttCallback_override (stored_mqtt_color_topic g)
              (bytes "#FF00FFZZ") g) as [A1 C1].
  destruct (mqttCallback_override (stored_mqtt_color_topic g)
              (bytes "-12345") g) as [A2 C2].
  rewrite A1, C1, A2, C2, String.eqb_refl.
  replace (parseColor (bytes "#FF00FFZZ")) with (Some 16711935)
    by (vm_compute; reflexivity).
  replace (parseColor (bytes "-12345")) with (Some 4294892731)
    by (vm_compute; reflexivity).
  repeat split.
Qed.

(** ** Brightness messages *)

(** C2. [atoi] yields 0 for text without a leading number, and the branch
    reads only the first 4 bytes: the payload "abc" sets the brightness to 0,
    and "00256", which denotes 256, sets it to 25. *)
Theorem mqttCallback_brightness_non_numeric g :
  brightness (mqttCallback (stored_mqtt_brightness_topic g) (bytes "abc") g) = 0
  /\ brightness (mqttCallback (stored_mqtt_brightness_topic g) (bytes "00256") g)
     = 25.
Proof.
  split; rewrite mqttCallback_brightness by (reflexivity || discriminate).
  - replace (atoi (copyInto 5 (bytes "abc"))) with 0 by (vm_compute; reflexivity).
    reflexivity.
  - replace (atoi (copyInto 5 (bytes "00256"))) with 25 by (vm_compute; reflexivity).
    reflexivity.
Qed.

(** The decimal text of a value in 0..255 sets the brightness to that
    value. *)
Lemma mqttCallback_brightness_valid g n :
  0 <= n <= 255 ->
  brightness (mqttCallback (stored_mqtt_brightness_topic g) (decimal n) g) = n.
Proof.
  intros Hn.
  assert (Hall : forallb (fun k => atoi (copyInto 5 (decimal k)) =? k)
                   (zrange 0 256) = true) by (vm_compute; reflexivity).
  rewrite forallb_forall in Hall.
  assert (Ha : atoi (copyInto 5 (decimal n)) = n).
  { apply Z.eqb_eq, Hall, zrange_In. lia. }
  rewrite mqttCallback_brightness; [|reflexivity|].
  - rewrite Ha.
    destruct (Z.leb_spec 0 n); [|lia]. destruct (Z.leb_spec n 255); [|lia].
    reflexivity.
  - unfold decimal. destruct (n <? 10); [discriminate|].
    destruct (n <? 100); discriminate.
Qed.

(** An empty brightness payload, and a value above 255 in at most 4 bytes,
    leave the brightness as it was. *)
Lemma mqttCallback_brightness_ignored g :
  stored_mqtt_brightness_topic g <> stored_mqtt_color_topic g ->
  brightness (mqttCallback (stored_mqtt_brightness_topic g) [] g) = brightness g
  /\ brightness (mqttCallback (stored_mqtt_brightness_topic g) (bytes "256") g)
     = brightness g.
Proof.
  intros Hne. split.
  - unfold mqttCallback. apply String.eqb_neq in Hne. rewrite Hne.
    rewrite String.eqb_refl. reflexivity.
  - rewrite mqttCallback_brightness by (reflexivity || discriminate).
    replace (atoi (copyInto 5 (bytes "256"))) with 256 by (vm_compute; reflexivity).
    reflexivity.
Qed.

(** ** Time resynchronisation *)

(** The unsigned difference recovers an elapsed time below 2^32 ms across the
    counter's wrap-around. *)
Lemma u32_elapsed last elapsed :
  0 <= elapsed < 2 ^ 32 -> u32 (u32 (last + elapsed) - last) = elapsed.
Proof.
  intros H. unfold u32.
  rewrite Zminus_mod_idemp_l.
  replace (last + elapsed - last) with elapsed by lia.
  apply Z.mod_small. exact H.
Qed.

(** ** Brightness *)

(** C10. In every state the sketch reaches, [brightness] lies in 0..255, and
    every [setBrightness] call made on the way had its argument in 0..255.
    The value starts at 25, and a pass changes it only by dispatching a
    message on the brightness topic. *)
Theorem brightness_always_in_range g tr :
  runs g tr ->
  (0 <= brightness g <= 255)
  /\ Forall (fun b => 0 <= b <= 255) (brightnessCalls tr)
  /\ brightness globals0 = 25
  /\ (forall e, brightness (fst (loop e g)) <> brightness g ->
                exists payload,
                  wifi_at_bus e = true
                  /\ inbound e = Some (stored_mqtt_brightness_topic g, payload)).
Proof.
  intros H.
  assert (HI : 0 <= brightness g <= 255
               /\ Forall (fun b => 0 <= b <= 255) (brightnessCalls tr)).
  { induction H as [w|g tr e H [IHb IHt]].
    - destruct w; simpl; split; try lia; repeat constructor; lia.
    - pose proof (loop_range e g IHb) as Hb. split; [exact Hb|].
      rewrite brightnessCalls_app, loop_brightnessCalls.
      apply Forall_app. split; [exact IHt|]. constructor; [exact Hb|constructor]. }
  destruct HI as [Hb Ht].
  split; [exact Hb|]. split; [exact Ht|]. split; [reflexivity|].
  intros e. apply loop_brightness_change.
Qed.

Lemma brightness_always_in_range_witness :
  runs (fst (loop dimPass (fst (setup true))))
       (snd (setup true) ++ snd (loop dimPass (fst (setup true))))
  /\ brightness (fst (loop dimPass (fst (setup true)))) = 200
  /\ 0 <= brightness (fst (loop dimPass (fst (setup true)))) <= 255
  /\ Forall (fun b => 0 <= b <= 255)
        (brightnessCalls
           (snd (setup true) ++ snd (loop dimPass (fst (setup true))))).
Proof.
  assert (H : runs (fst (loop dimPass (fst (setup true))))
                (snd (setup true) ++ snd (loop dimPass (fst (setup true)))))
    by (exact (runs_loop _ _ dimPass (runs_setup true))).
  split; [exact H|]. split; [reflexivity|].
  destruct (brightness_always_in_range _ _ H) as (Hb & Ht & _).
  split; [exact Hb | exact Ht].
Defined.

(** ** The colour override across a bus disconnect *)

Lemma loops_cons e es g :
  fst (loops (e :: es) g) = fst (loops es (fst (loop e g)))
  /\ snd (loops (e :: es) g)
     = snd (loop e g) ++ snd (loops es (fst (loop e g))).
Proof.
  simpl. destruct (loop e g) as [g1 ev1]. simpl.
  destruct (loops es g1) as [g2 ev2]. split; reflexivity.
Qed.






(** * Further properties of the sketch *)

(** ** Rendering for any time value *)

Lemma run_length ops : forall st,
  List.length (pixels st) = Z.to_nat LEDCLOCK_COUNT ->
  List.length (pixels (run ops st)) = Z.to_nat LEDCLOCK_COUNT.
Proof.
  induction ops as [|op ops IH]; intros st H; [exact H|].
  rewrite run_cons. apply IH.
  destruct op; cbn [exec pixels]; try exact H.
  - apply repeat_length.
  - rewrite fill_length. exact H.
Qed.

(** X1. Whatever integers are passed as hour and minute (also values no
    clock produces), every LED index [displayTheTime] asks for lies in
    0..85, the buffer keeps its 86 slots, and a LED ends with the colour when
    a fill of the frame covers it and off otherwise. *)
Theorem displayTheTime_any_time_on_strip h m c st :
  (forall i, In i (targets (displayTheTime h m c)) -> 0 <= i <= 85)
  /\ List.length (pixels (run (displayTheTime h m c) st)) = 86%nat
  /\ (forall i, pixel (run (displayTheTime h m c) st) i
                = if covered (frameFills h m c) i then c else 0).
Proof.
  split; [|split].
  - intros i Hi. rewrite displayTheTime_frameFills in Hi.
    change (Clear :: frameFills h m c ++ [Latch])
      with ([Clear] ++ frameFills h m c ++ [Latch]) in Hi.
    rewrite !targets_app in Hi. apply in_app_or in Hi. destruct Hi as [Hi|Hi].
    + unfold targets in Hi; cbn [flat_map writes] in Hi.
      rewrite app_nil_r in Hi. apply zrange_In in Hi.
      unfold LEDCLOCK_COUNT in Hi. lia.
    + apply in_app_or in Hi. destruct Hi as [Hi|Hi]; [|contradiction].
      unfold targets in Hi. apply in_flat_map in Hi.
      destruct Hi as [op [Hop Hi]].
      pose proof (frameFills_within h m c) as HW.
      rewrite Forall_forall in HW. specialize (HW op Hop).
      destruct op; simpl in HW; try contradiction.
      unfold writes in Hi. apply zrange_In in Hi.
      unfold LEDCLOCK_COUNT in HW. lia.
  - rewrite displayTheTime_frameFills, run_cons.
    change 86%nat with (Z.to_nat LEDCLOCK_COUNT).
    apply run_length. cbn [exec pixels]. apply repeat_length.
  - intros i. apply pixel_displayTheTime.
Qed.

(** ** Telling digits and frames apart *)

Lemma litBy_shift d base k : litBy d base (base + k) = litBy d 0 k.
Proof.
  unfold litBy. induction (digitSegments d) as [|s l IH]; [reflexivity|].
  simpl. rewrite IH. f_equal. unfold inSegment.
  destruct (Z.leb_spec (base + segmentOffsets s) (base + k));
    destruct (Z.leb_spec (0 + segmentOffsets s) k); try lia;
    destruct (Z.ltb_spec (base + k) (base + segmentOffsets s + 3));
    destruct (Z.ltb_spec k (0 + segmentOffsets s + 3)); try lia; reflexivity.
Qed.

Lemma covered_displayNumber_shift d base c k :
  covered (displayNumber d base c) (base + k) = covered (displayNumber d 0 1) k.
Proof.
  rewrite !covered_displayNumber, litBy_shift. reflexivity.
Qed.

(** X2. Two different digits of 0..9 never draw the same pattern: rendered
    at the same base offset, they differ on at least one LED of the slot. *)
Theorem displayNumber_digits_differ d d' base c :
  0 <= d <= 9 -> 0 <= d' <= 9 -> d <> d' ->
  exists k, 0 <= k < 21
            /\ covered (displayNumber d base c) (base + k)
               <> covered (displayNumber d' base c) (base + k).
Proof.
  intros Hd Hd' Hne.
  assert (Hall : forallb (fun a => forallb (fun b =>
                    (a =? b) || match distinguish a b with
                                | Some _ => true
                                | None => false
                                end) (zrange 0 10)) (zrange 0 10) = true)
    by (vm_compute; reflexivity).
  rewrite forallb_forall in Hall.
  assert (Hin : forall x, 0 <= x <= 9 -> In x (zrange 0 10))
    by (intros x Hx; apply zrange_In; lia).
  specialize (Hall d (Hin d Hd)). rewrite forallb_forall in Hall.
  specialize (Hall d' (Hin d' Hd')).
  destruct (Z.eqb_spec d d'); [contradiction|]. simpl in Hall.
  destruct (distinguish d d') as [k|] eqn:E; [|discriminate].
  unfold distinguish in E. apply find_some in E. destruct E as [Hk Hx].
  apply zrange_In in Hk. exists k. split; [lia|].
  rewrite !covered_displayNumber_shift.
  destruct (covered (displayNumber d 0 1) k);
    destruct (covered (displayNumber d' 0 1) k); simpl in Hx;
    discriminate.
Qed.

Lemma displayNumber_digits_differ_witness :
  0 <= 3 <= 9 /\ 0 <= 9 <= 9 /\ 3 <> 9
  /\ exists k, 0 <= k < 21
               /\ covered (displayNumber 3 44 255) (44 + k)
                  <> covered (displayNumber 9 44 255) (44 + k).
Proof.
  assert (H3 : 0 <= 3 <= 9) by lia.
  assert (H9 : 0 <= 9 <= 9) by lia.
  assert (Hne : 3 <> 9) by lia.
  split; [exact H3|]. split; [exact H9|]. split; [exact Hne|].
  exact (displayNumber_digits_differ 3 9 44 255 H3 H9 Hne).
Defined.

Lemma covered_frameFills_colour h m c c' i :
  covered (frameFills h m c) i = covered (frameFills h m c') i.
Proof. rewrite !covered_frameFills. reflexivity. Qed.

Lemma forallb_pointwise {A} (p q : A -> bool) l :
  (forall a, p a = q a) -> forallb p l = forallb q l.
Proof.
  intros H. induction l as [|a l IH]; [reflexivity|].
  simpl. now rewrite H, IH.
Qed.

Lemma find_pointwise {A} (p q : A -> bool) l :
  (forall a, p a = q a) -> find p l = find q l.
Proof.
  intros H. induction l as [|a l IH]; [reflexivity|].
  simpl. now rewrite H, IH.
Qed.

Lemma slotIs_ext f f' base d :
  (forall i, f i = f' i) -> slotIs f base d = slotIs f' base d.
Proof.
  intros H. unfold slotIs. apply forallb_pointwise. intros k. now rewrite H.
Qed.

Lemma readTime_ext f f' : (forall i, f i = f' i) -> readTime f = readTime f'.
Proof.
  intros H.
  assert (HD : forall base, readDigit f base = readDigit f' base).
  { intros base. unfold readDigit. apply find_pointwise. intros d.
    apply slotIs_ext. exact H. }
  assert (HB : slotBlank f 65 = slotBlank f' 65).
  { unfold slotBlank. apply forallb_pointwise. intros k. now rewrite H. }
  unfold readTime. rewrite !HD, HB. reflexivity.
Qed.

(** With a colour other than 0, the lit LEDs of a composed frame are the
    LEDs its fills cover. *)
Lemma lit_displayTheTime h m c st i :
  c <> 0 ->
  lit (run (displayTheTime h m c) st) i = covered (frameFills h m 1) i.
Proof.
  intros Hc. unfold lit. rewrite pixel_displayTheTime.
  rewrite (covered_frameFills_colour h m c 1).
  destruct (covered (frameFills h m 1) i).
  - destruct (Z.eqb_spec c 0); [contradiction|reflexivity].
  - reflexivity.
Qed.

(** The frame of every time of day reads back as that time. *)
Lemma readTime_frameFills h m :
  0 <= h <= 23 -> 0 <= m <= 59 ->
  readTime (covered (frameFills h m 1)) = Some (h, m).
Proof.
  intros Hh Hm.
  assert (Hall : forallb (fun a => forallb (fun b =>
                    match readTime (covered (frameFills a b 1)) with
                    | Some (a', b') => (a' =? a) && (b' =? b)
                    | None => false
                    end) (zrange 0 60)) (zrange 0 24) = true)
    by (vm_compute; reflexivity).
  rewrite forallb_forall in Hall.
  assert (Hih : In h (zrange 0 24)) by (apply zrange_In; lia).
  assert (Him : In m (zrange 0 60)) by (apply zrange_In; lia).
  specialize (Hall h Hih). rewrite forallb_forall in Hall.
  specialize (Hall m Him).
  destruct (readTime (covered (frameFills h m 1))) as [[a b]|]; [|discriminate].
  apply andb_true_iff in Hall. destruct Hall as [Ha Hb].
  apply Z.eqb_eq in Ha, Hb. now subst.
Qed.

(** X3. With a colour other than 0, the frame composed for a time of day
    reads back as that time: the three or four digit patterns on the strip
    determine hour and minute. *)
Theorem displayTheTime_reads_back h m c st :
  0 <= h <= 23 -> 0 <= m <= 59 -> c <> 0 ->
  readTime (lit (run (displayTheTime h m c) st)) = Some (h, m).
Proof.
  intros Hh Hm Hc.
  rewrite (readTime_ext _ (covered (frameFills h m 1))).
  - apply readTime_frameFills; assumption.
  - intros i. apply lit_displayTheTime. exact Hc.
Qed.

Lemma displayTheTime_reads_back_witness :
  0 <= 9 <= 23 /\ 0 <= 5 <= 59 /\ 13685629 <> 0
  /\ readTime (lit (run (displayTheTime 9 5 13685629) usedStrip)) = Some (9, 5).
Proof.
  assert (Hh : 0 <= 9 <= 23) by lia.
  assert (Hm : 0 <= 5 <= 59) by lia.
  assert (Hc : 13685629 <> 0) by lia.
  split; [exact Hh|]. split; [exact Hm|]. split; [exact Hc|].
  exact (displayTheTime_reads_back 9 5 13685629 usedStrip Hh Hm Hc).
Defined.

(** X4. With a colour other than 0, two times of day never give the same
    frame: equal buffers mean equal hour and minute. *)
Theorem displayTheTime_frames_differ h m h' m' c st st' :
  0 <= h <= 23 -> 0 <= m <= 59 -> 0 <= h' <= 23 -> 0 <= m' <= 59 ->
  c <> 0 ->
  pixels (run (displayTheTime h m c) st) = pixels (run (displayTheTime h' m' c) st') ->
  h = h' /\ m = m'.
Proof.
  intros Hh Hm Hh' Hm' Hc Heq.
  pose proof (readTime_frameFills h m Hh Hm) as R.
  pose proof (readTime_frameFills h' m' Hh' Hm') as R'.
  rewrite (readTime_ext _ (covered (frameFills h' m' 1))) in R.
  - rewrite R' in R. inversion R. split; reflexivity.
  - intros i. rewrite <- (lit_displayTheTime h m c st i Hc).
    rewrite <- (lit_displayTheTime h' m' c st' i Hc).
    unfold lit, pixel. now rewrite Heq.
Qed.

Lemma displayTheTime_frames_differ_witness :
  0 <= 1 <= 23 /\ 0 <= 7 <= 59 /\ 0 <= 7 <= 23 /\ 0 <= 1 <= 59 /\ 255 <> 0
  /\ pixels (run (displayTheTime 1 7 255) stripClock0)
     <> pixels (run (displayTheTime 7 1 255) usedStrip).
Proof.
  assert (H1 : 0 <= 1 <= 23) by lia.
  assert (H2 : 0 <= 7 <= 59) by lia.
  assert (H3 : 0 <= 7 <= 23) by lia.
  assert (H4 : 0 <= 1 <= 59) by lia.
  assert (Hc : 255 <> 0) by lia.
  split; [exact H1|]. split; [exact H2|]. split; [exact H3|].
  split; [exact H4|]. split; [exact Hc|].
  intros Heq.
  destruct (displayTheTime_frames_differ 1 7 7 1 255 stripClock0 usedStrip
              H1 H2 H3 H4 Hc Heq) as [E _].
  discriminate E.
Defined.

(** A frame composed with colour 0 is dark, whatever the time. *)
Lemma displayTheTime_black h m st i :
  pixel (run (displayTheTime h m 0) st) i = 0.
Proof.
  rewrite pixel_displayTheTime. destruct (covered (frameFills h m 0) i); reflexivity.
Qed.

(** ** No LED is painted twice *)

Lemma zrange_NoDup first count : NoDup (zrange first count).
Proof.
  unfold zrange. generalize (seq_NoDup (Z.to_nat count) 0).
  induction 1 as [|k l Hk _ IH]; [constructor|].
  cbn [map]. constructor; [|exact IH].
  intros Hin. apply in_map_iff in Hin. destruct Hin as [k' [E Hk']].
  assert (k' = k) by lia. subst. contradiction.
Qed.

Lemma targets_cons op ops : targets (op :: ops) = writes op ++ targets ops.
Proof. reflexivity. Qed.

Lemma displayNumber_NoDup d base c : NoDup (targets (displayNumber d base c)).
Proof.
  rewrite displayNumber_table.
  assert (HS : forall l, NoDup l ->
             (forall s s', In s l -> In s' l -> s <> s' ->
                           segmentOffsets s + 3 <= segmentOffsets s'
                           \/ segmentOffsets s' + 3 <= segmentOffsets s) ->
             NoDup (targets (map (fun s => Fill c (base + segmentOffsets s) 3) l))).
  { induction l as [|s l IH]; intros Hnd Hsep; [constructor|].
    inversion Hnd as [|? ? Hs Hl]; subst.
    cbn [map]. rewrite targets_cons. apply NoDup_app.
    - apply zrange_NoDup.
    - apply IH; [exact Hl|]. intros a b Ha Hb. apply Hsep; now right.
    - intros i Hi Hin. unfold writes in Hi. apply zrange_In in Hi.
      unfold targets in Hin. apply in_flat_map in Hin.
      destruct Hin as [op [Hop Hj]]. apply in_map_iff in Hop.
      destruct Hop as [s' [<- Hs']]. unfold writes in Hj. apply zrange_In in Hj.
      assert (Hne : s <> s') by (intros ->; contradiction).
      destruct (Hsep s s' (or_introl eq_refl) (or_intror Hs') Hne); lia. }
  apply HS.
  - destruct d as [|p|p]; try constructor;
      repeat (destruct p as [p|p|]; try constructor);
      cbn; repeat constructor; cbn; intuition discriminate.
  - intros s s' _ _ Hne. destruct s; destruct s'; cbn; try lia; contradiction.
Qed.

Lemma separator_targets c i :
  In i (targets [Fill c 42 1; Fill c 43 1]) -> i = 42 \/ i = 43.
Proof.
  rewrite !targets_cons. unfold writes, targets. cbn [flat_map].
  rewrite app_nil_r. intros H. apply in_app_or in H.
  destruct H as [H|H]; apply zrange_In in H; lia.
Qed.

Lemma separator_NoDup c : NoDup (targets [Fill c 42 1; Fill c 43 1]).
Proof.
  rewrite !targets_cons. unfold writes, targets. cbn [flat_map].
  rewrite app_nil_r. apply NoDup_app; try apply zrange_NoDup.
  intros i Hi Hj. apply zrange_In in Hi. apply zrange_In in Hj. lia.
Qed.

(** X5. A frame is one clear, a run of fills and one show, and no LED is
    written twice by those fills, whatever the hour and minute: the segments of a digit do not overlap, the digit slots
    do not overlap each other, and none reaches the separator LEDs. *)
Theorem displayTheTime_paints_once h m c :
  displayTheTime h m c = Clear :: frameFills h m c ++ [Latch]
  /\ NoDup (targets (frameFills h m c)).
Proof.
  split; [apply displayTheTime_frameFills|].
  assert (HR : forall d b i, In i (targets (displayNumber d b c)) -> b <= i < b + 21).
  { intros d b i Hi. apply targets_displayNumber in Hi.
    now apply litBy_slot in Hi. }
  unfold frameFills. rewrite !targets_app.
  apply NoDup_app; [apply displayNumber_NoDup| |].
  - apply NoDup_app; [apply displayNumber_NoDup| |].
    + apply NoDup_app.
      * apply separator_NoDup.
      * destruct (9 <? h); [rewrite targets_app; apply NoDup_app|];
          try apply displayNumber_NoDup.
        intros i Hi Hj. apply HR in Hi. apply HR in Hj. lia.
      * intros i Hi Hj. apply separator_targets in Hi.
        destruct (9 <? h); [rewrite targets_app in Hj; apply in_app_or in Hj;
                            destruct Hj as [Hj|Hj]|];
          apply HR in Hj; lia.
    + intros i Hi Hj. apply HR in Hi.
      apply in_app_or in Hj. destruct Hj as [Hj|Hj].
      * apply separator_targets in Hj. lia.
      * destruct (9 <? h); [rewrite targets_app in Hj; apply in_app_or in Hj;
                            destruct Hj as [Hj|Hj]|];
          apply HR in Hj; lia.
  - intros i Hi Hj. apply HR in Hi.
    apply in_app_or in Hj. destruct Hj as [Hj|Hj]; [apply HR in Hj; lia|].
    apply in_app_or in Hj. destruct Hj as [Hj|Hj].
    + apply separator_targets in Hj. lia.
    + destruct (9 <? h); [rewrite targets_app in Hj; apply in_app_or in Hj;
                          destruct Hj as [Hj|Hj]|];
        apply HR in Hj; lia.
Qed.

(** ** What the colour branch accepts *)

Lemma cstr_text l rest :
  forallb nonNUL l = true -> deref rest = NUL -> cstr (l ++ rest) = l.
Proof.
  intros Hl Hr. induction l as [|c l IH].
  - simpl. destruct rest as [|r rest]; [reflexivity|].
    unfold deref in Hr. simpl in Hr. subst r. reflexivity.
  - simpl in Hl. apply andb_true_iff in Hl. destruct Hl as [Hc Hl].
    unfold nonNUL in Hc. apply negb_true_iff in Hc.
    simpl. rewrite Hc, IH by exact Hl. reflexivity.
Qed.

Lemma skipSpace_split s :
  exists ws, s = ws ++ skipSpace s /\ forallb isspace ws = true.
Proof.
  induction s as [|c s [ws [E H]]]; [exists []; split; reflexivity|].
  simpl. destruct (isspace c) eqn:Hc.
  - exists (c :: ws). split; [simpl; now rewrite <- E|].
    simpl. now rewrite Hc, H.
  - exists []. split; reflexivity.
Qed.

Lemma takeSign_split s :
  exists sg, s = sg ++ snd (takeSign s) /\ isSign sg
             /\ fst (takeSign s) = isMinus sg.
Proof.
  destruct s as [|c s]; [exists []; repeat split; now left|].
  unfold takeSign. destruct (isChar c 45) eqn:H45.
  - exists [c]. split; [reflexivity|]. split; [|simpl; now rewrite H45].
    right; right. f_equal. unfold isChar, code in H45. apply Z.eqb_eq in H45.
    rewrite <- (ascii_N_embedding c).
    replace (N_of_ascii c) with 45%N by lia. reflexivity.
  - destruct (isChar c 43) eqn:H43.
    + exists [c]. split; [reflexivity|]. split; [|simpl; now rewrite H45].
      right; left. f_equal. unfold isChar, code in H43. apply Z.eqb_eq in H43.
      rewrite <- (ascii_N_embedding c).
      replace (N_of_ascii c) with 43%N by lia. reflexivity.
    + exists []. repeat split. now left.
Qed.

Lemma isChar_eq c n a :
  isChar c n = true -> n = code a -> c = a.
Proof.
  unfold isChar. intros H ->. apply Z.eqb_eq in H. unfold code in H.
  rewrite <- (ascii_N_embedding c), <- (ascii_N_embedding a).
  f_equal. lia.
Qed.

Lemma takePrefix_split s :
  exists px, s = px ++ takePrefix 16 s /\ isPrefix px.
Proof.
  unfold takePrefix. change (16 =? 16) with true. cbv iota.
  destruct s as [|z [|x [|h rest]]]; try (exists []; split; [reflexivity|now left]).
  destruct (isChar z 48) eqn:Hz; [|exists []; split; [reflexivity|now left]].
  destruct (isChar x 120) eqn:Hx.
  - simpl. destruct (digitIn 16 h); [|exists []; split; [reflexivity|now left]].
    exists [z; x]. split; [reflexivity|]. right; left.
    rewrite (isChar_eq z 48 "0"%char Hz eq_refl).
    rewrite (isChar_eq x 120 "x"%char Hx eq_refl). reflexivity.
  - destruct (isChar x 88) eqn:HX; simpl;
      [|exists []; split; [reflexivity|now left]].
    destruct (digitIn 16 h); [|exists []; split; [reflexivity|now left]].
    exists [z; x]. split; [reflexivity|]. right; right.
    rewrite (isChar_eq z 48 "0"%char Hz eq_refl).
    rewrite (isChar_eq x 88 "X"%char HX eq_refl). reflexivity.
Qed.

Lemma digits_split s : forall acc,
  exists ds, s = ds ++ snd (digits 16 acc s)
             /\ forallb isHexDigit ds = true
             /\ fst (digits 16 acc s) = fold_left hexStep ds acc.
Proof.
  induction s as [|c s IH]; intros acc; [exists []; repeat split|].
  simpl. destruct (digitIn 16 c) as [v|] eqn:Hc.
  - destruct (IH (acc * 16 + v)) as [ds [E [H F]]].
    exists (c :: ds). split; [simpl; now rewrite <- E|]. split.
    + simpl. unfold isHexDigit at 1. now rewrite Hc, H.
    + rewrite F. simpl. f_equal. unfold hexStep.
      unfold digitIn in Hc. destruct (digitValue c) as [w|]; [|discriminate].
      destruct (w <? 16); [|discriminate]. now inversion Hc.
  - exists []. repeat split.
Qed.

Lemma hexStep_bound ds : forall acc,
  0 <= acc -> forallb isHexDigit ds = true ->
  0 <= fold_left hexStep ds acc
  < (acc + 1) * 16 ^ Z.of_nat (List.length ds).
Proof.
  induction ds as [|c ds IH]; intros acc Hacc H.
  - simpl. lia.
  - simpl in H. apply andb_true_iff in H. destruct H as [Hc H].
    destruct (hex_char c Hc) as (v & _ & V & R & _).
    cbn [fold_left List.length].
    replace (hexStep acc c) with (acc * 16 + v)
      by (unfold hexStep; now rewrite V).
    specialize (IH (acc * 16 + v) ltac:(lia) H).
    rewrite Nat2Z.inj_succ, Z.pow_succ_r by lia.
    set (P := 16 ^ Z.of_nat (List.length ds)) in *.
    assert (HP : 0 < P) by (apply Z.pow_pos_nonneg; lia).
    assert (HM : (acc * 16 + v + 1) * P <= (acc + 1) * 16 * P)
      by (apply Z.mul_le_mono_nonneg_r; lia).
    lia.
Qed.

Lemma hexValue_bound ds :
  forallb isHexDigit ds = true ->
  0 <= hexValue ds < 16 ^ Z.of_nat (List.length ds).
Proof.
  intros H. pose proof (hexStep_bound ds 0 ltac:(lia) H) as B.
  change (fold_left hexStep ds 0) with (hexValue ds) in B. lia.
Qed.

(** [strtol] in base 16 either converts nothing, or reads white space, a
    sign, a prefix and at least one hex digit, and stops there. *)
Lemma strtol_16_shape s :
  (strtol s 16 = (0, s))
  \/ exists ws sg px ds,
       s = ws ++ sg ++ px ++ ds ++ snd (strtol s 16)
       /\ forallb isspace ws = true /\ isSign sg /\ isPrefix px
       /\ ds <> [] /\ forallb isHexDigit ds = true
       /\ fst (strtol s 16)
          = clampLong (if isMinus sg then - hexValue ds else hexValue ds).
Proof.
  destruct (skipSpace_split s) as [ws [Ews Hws]].
  destruct (takeSign_split (skipSpace s)) as [sg [Esg [Hsg Hneg]]].
  destruct (takePrefix_split (snd (takeSign (skipSpace s)))) as [px [Epx Hpx]].
  unfold strtol.
  destruct (takeSign (skipSpace s)) as [neg s1] eqn:ET. simpl in *.
  destruct (takePrefix 16 s1) as [|c s2] eqn:EP; [now left|].
  destruct (digitIn 16 c) as [v0|] eqn:Hc; [|now left].
  right.
  destruct (digits_split (c :: s2) 0) as [ds [Eds [Hds Hv]]].
  destruct (digits 16 0 (c :: s2)) as [v rest] eqn:ED. simpl in *.
  exists ws, sg, px, ds. repeat split; try assumption.
  - rewrite Ews at 1. rewrite Esg at 1. rewrite Epx at 1. rewrite Eds at 1.
    reflexivity.
  - intros ->. simpl in Eds. subst rest.
    simpl in ED. rewrite Hc in ED.
    assert (HL : forall t acc, (List.length (snd (digits 16 acc t)) <= List.length t)%nat).
    { induction t as [|a t IHt]; intros acc; simpl; [lia|].
      destruct (digitIn 16 a); [specialize (IHt (acc * 16 + z)); lia|simpl; lia]. }
    specialize (HL s2 v0). rewrite ED in HL. simpl in HL. lia.
  - rewrite Hv, Hneg. reflexivity.
Qed.

Lemma isspace_nonNUL ws : forallb isspace ws = true -> forallb nonNUL ws = true.
Proof.
  induction ws as [|c ws IH]; [reflexivity|]. simpl.
  intros H. apply andb_true_iff in H. destruct H as [Hc H].
  rewrite IH by exact H. rewrite andb_true_r. unfold nonNUL.
  destruct (Ascii.eqb_spec c NUL) as [->|]; [discriminate Hc|reflexivity].
Qed.

Lemma hex_nonNUL ds : forallb isHexDigit ds = true -> forallb nonNUL ds = true.
Proof.
  induction ds as [|c ds IH]; [reflexivity|]. simpl.
  intros H. apply andb_true_iff in H. destruct H as [Hc H].
  rewrite IH by exact H. rewrite andb_true_r. unfold nonNUL.
  destruct (Ascii.eqb_spec c NUL) as [->|]; [discriminate Hc|reflexivity].
Qed.

Lemma forallb_app_intro {A} (p : A -> bool) l1 l2 :
  forallb p l1 = true -> forallb p l2 = true -> forallb p (l1 ++ l2) = true.
Proof. intros H1 H2. rewrite forallb_app, H1, H2. reflexivity. Qed.

(** The test of the colour branch, read backwards. *)
Lemma parseColor_shape payload v :
  parseColor payload = Some v ->
  exists ws sg px ds,
    testedText payload = ws ++ sg ++ px ++ ds
    /\ List.length (testedText payload) = 6%nat
    /\ forallb isspace ws = true /\ isSign sg /\ isPrefix px
    /\ ds <> [] /\ forallb isHexDigit ds = true
    /\ v = u32 (if isMinus sg then - hexValue ds else hexValue ds)
    /\ (isMinus sg = false -> 0 <= v < 2 ^ 24).
Proof.
  unfold parseColor, testedText.
  set (s := if isChar (deref (copyInto 8 payload)) 35
            then tl (copyInto 8 payload) else copyInto 8 payload).
  intros H.
  destruct (strtol s 16) as [cv rest] eqn:ES.
  destruct (Ascii.eqb_spec (deref rest) NUL) as [Hr|]; [|discriminate H].
  destruct (Z.eqb_spec (strlen s) 6) as [Hl|]; [|discriminate H].
  simpl in H. inversion H; subst v. clear H.
  destruct (strtol_16_shape s)
    as [E|(ws & sg & px & ds & E & Hws & Hsg & Hpx & Hne & Hds & Hv)].
  - exfalso. rewrite E in ES. inversion ES; subst rest.
    pose proof (cstr_text [] s eq_refl Hr) as C. simpl in C.
    unfold strlen in Hl. rewrite C in Hl. discriminate Hl.
  - rewrite ES in E, Hv. simpl in E, Hv.
    assert (Hnn : forallb nonNUL (ws ++ sg ++ px ++ ds) = true).
    { apply forallb_app_intro; [now apply isspace_nonNUL|].
      apply forallb_app_intro;
        [destruct Hsg as [->|[->| ->]]; reflexivity|].
      apply forallb_app_intro;
        [destruct Hpx as [->|[->| ->]]; reflexivity|].
      now apply hex_nonNUL. }
    assert (C : cstr s = ws ++ sg ++ px ++ ds).
    { rewrite E at 1.
      replace (ws ++ sg ++ px ++ ds ++ rest) with ((ws ++ sg ++ px ++ ds) ++ rest)
        by (now rewrite <- !app_assoc).
      apply cstr_text; assumption. }
    assert (L : List.length (cstr s) = 6%nat) by (unfold strlen in Hl; lia).
    assert (Ld : (List.length ds <= 6)%nat).
    { rewrite C in L. rewrite !length_app in L. lia. }
    pose proof (hexValue_bound ds Hds) as B.
    assert (P : 16 ^ Z.of_nat (List.length ds) <= 16 ^ 6)
      by (apply Z.pow_le_mono_r; lia).
    assert (Hcv : cv = if isMinus sg then - hexValue ds else hexValue ds).
    { rewrite Hv. unfold clampLong, LONG_MAX, LONG_MIN.
      destruct (isMinus sg).
      - destruct (Z.ltb_spec 2147483647 (- hexValue ds)); [lia|].
        destruct (Z.ltb_spec (- hexValue ds) (-2147483648)); [lia|reflexivity].
      - destruct (Z.ltb_spec 2147483647 (hexValue ds)); [lia|].
        destruct (Z.ltb_spec (hexValue ds) (-2147483648)); [lia|reflexivity]. }
    exists ws, sg, px, ds.
    split; [exact C|]. split; [exact L|]. split; [exact Hws|].
    split; [exact Hsg|]. split; [exact Hpx|]. split; [exact Hne|].
    split; [exact Hds|]. split; [now rewrite Hcv|].
    intros Hm. rewrite Hcv, Hm. unfold u32.
    rewrite Z.mod_small; lia.
Qed.

(** X8. A message on the colour topic activates the override only if the
    text the branch tests (at most the first 7 payload bytes, cut at a NUL,
    without a leading '#') has exactly 6 bytes made of optional white space,
    an optional sign, an optional 0x or 0X, and at least one hex digit up to
    its end.  The colour stored is the value of those digits, negated under a
    minus sign, as a 32-bit unsigned number; it fits 24 bits when there is no
    minus sign. *)
Theorem mqttCallback_accepted_shape g payload :
  mqttColorActive (mqttCallback (stored_mqtt_color_topic g) payload g) = true ->
  exists ws sg px ds,
    testedText payload = ws ++ sg ++ px ++ ds
    /\ List.length (testedText payload) = 6%nat
    /\ forallb isspace ws = true /\ isSign sg /\ isPrefix px
    /\ ds <> [] /\ forallb isHexDigit ds = true
    /\ mqttColor (mqttCallback (stored_mqtt_color_topic g) payload g)
       = u32 (if isMinus sg then - hexValue ds else hexValue ds)
    /\ (isMinus sg = false ->
        0 <= mqttColor (mqttCallback (stored_mqtt_color_topic g) payload g)
        < 2 ^ 24).
Proof.
  destruct (mqttCallback_override (stored_mqtt_color_topic g) payload g)
    as [A C].
  rewrite A, C, String.eqb_refl.
  destruct (parseColor payload) as [v|] eqn:E; [|discriminate].
  intros Hn. rewrite Hn. cbn [andb].
  exact (parseColor_shape payload v E).
Qed.

Lemma mqttCallback_accepted_shape_witness :
  mqttColorActive (mqttCallback (stored_mqtt_color_topic globals0)
                     (bytes " +0xA9") globals0) = true
  /\ mqttColor (mqttCallback (stored_mqtt_color_topic globals0)
                  (bytes " +0xA9") globals0) = 169
  /\ exists ws sg px ds,
       testedText (bytes " +0xA9") = ws ++ sg ++ px ++ ds
       /\ forallb isspace ws = true /\ isSign sg /\ isPrefix px
       /\ forallb isHexDigit ds = true.
Proof.
  assert (H : mqttColorActive (mqttCallback (stored_mqtt_color_topic globals0)
                                 (bytes " +0xA9") globals0) = true)
    by reflexivity.
  split; [exact H|]. split; [reflexivity|].
  destruct (mqttCallback_accepted_shape globals0 (bytes " +0xA9") H)
    as (ws & sg & px & ds & T & _ & W & S & P & _ & D & _).
  exists ws, sg, px, ds. repeat split; assumption.
Defined.

(** ** What a message can change *)

Lemma copyInto_firstn size n payload :
  (size - 1 <= n)%nat -> copyInto size (firstn n payload) = copyInto size payload.
Proof.
  intros H. unfold copyInto. rewrite firstn_firstn.
  replace (Nat.min (size - 1) n) with (size - 1)%nat by lia. reflexivity.
Qed.

Lemma length_firstn_zero n (payload : list ascii) :
  (0 < n)%nat ->
  (Z.of_nat (List.length (firstn n payload)) =? 0)
  = (Z.of_nat (List.length payload) =? 0).
Proof.
  intros Hn. destruct payload as [|c p]; [now rewrite firstn_nil|].
  destruct n as [|n]; [lia|]. simpl List.length.
  destruct (Z.eqb_spec (Z.of_nat (S (List.length (firstn n p)))) 0); [lia|].
  destruct (Z.eqb_spec (Z.of_nat (S (List.length p))) 0); [lia|]. reflexivity.
Qed.

Lemma length_firstn_pos n (payload : list ascii) :
  (0 < n)%nat ->
  (0 <? Z.of_nat (List.length (firstn n payload)))
  = (0 <? Z.of_nat (List.length payload)).
Proof.
  intros Hn. destruct payload as [|c p]; [now rewrite firstn_nil|].
  destruct n as [|n]; [lia|]. simpl List.length.
  destruct (Z.ltb_spec 0 (Z.of_nat (S (List.length (firstn n p))))); [|lia].
  destruct (Z.ltb_spec 0 (Z.of_nat (S (List.length p)))); [|lia]. reflexivity.
Qed.

(** X6. The callback looks at a bounded prefix of the payload only: the
    colour decision depends on the first 7 bytes, the brightness decision on
    the first 4, so a message and its first 7 bytes have the same effect. *)
Theorem mqttCallback_reads_prefix topic payload g :
  parseColor payload = parseColor (firstn 7 payload)
  /\ brightnessBranch payload g = brightnessBranch (firstn 4 payload) g
  /\ mqttCallback topic payload g = mqttCallback topic (firstn 7 payload) g.
Proof.
  assert (HP : parseColor (firstn 7 payload) = parseColor payload).
  { unfold parseColor. rewrite copyInto_firstn by (simpl; lia). reflexivity. }
  assert (HB : forall n x, (4 <= n)%nat ->
                 brightnessBranch (firstn n payload) x = brightnessBranch payload x).
  { intros n x Hn. unfold brightnessBranch.
    rewrite length_firstn_pos by lia.
    rewrite copyInto_firstn by (simpl; lia). reflexivity. }
  split; [now rewrite HP|]. split; [now rewrite HB by lia|].
  unfold mqttCallback.
  rewrite length_firstn_zero by lia. rewrite HP.
  destruct (String.eqb topic (stored_mqtt_color_topic g)).
  - destruct (Z.of_nat (List.length payload) =? 0); [reflexivity|].
    destruct (parseColor payload);
      match goal with
      | |- (if ?b then _ else _) = _ => destruct b
      end; try reflexivity; now rewrite HB by lia.
  - destruct (String.eqb topic (stored_mqtt_brightness_topic g)); [|reflexivity].
    now rewrite HB by lia.
Qed.

(** X7. A message changes nothing but the colour override and the
    brightness: every other global, [previousMinute] and [currentSecond]
    included, is as before.  On a topic other than the colour topic the
    override is left alone, on a topic other than the brightness topic the
    brightness is left alone, and on a topic that is neither the globals are
    unchanged. *)
Theorem mqttCallback_touches_only_its_field topic payload g :
  mqttCallback topic payload g
  = mkGlobals (wifiConnected g) (stored_mqtt_color_topic g)
      (stored_mqtt_brightness_topic g)
      (mqttColorActive (mqttCallback topic payload g))
      (mqttColor (mqttCallback topic payload g))
      (lastTimeSync g) (clockColour g)
      (brightness (mqttCallback topic payload g))
      (currentHour g) (currentMinute g) (currentSecond g) (previousMinute g)
  /\ sameSettings g (mqttCallback topic payload g)
  /\ currentSecond (mqttCallback topic payload g) = currentSecond g
  /\ previousMinute (mqttCallback topic payload g) = previousMinute g
  /\ (topic <> stored_mqtt_color_topic g ->
      mqttColorActive (mqttCallback topic payload g) = mqttColorActive g
      /\ mqttColor (mqttCallback topic payload g) = mqttColor g)
  /\ (topic <> stored_mqtt_brightness_topic g ->
      brightness (mqttCallback topic payload g) = brightness g)
  /\ (topic <> stored_mqtt_color_topic g ->
      topic <> stored_mqtt_brightness_topic g ->
      mqttCallback topic payload g = g).
Proof.
  assert (HO : currentSecond (mqttCallback topic payload g) = currentSecond g
               /\ previousMinute (mqttCallback topic payload g) = previousMinute g).
  { unfold mqttCallback, brightnessBranch.
    destruct (String.eqb topic (stored_mqtt_color_topic g)).
    - destruct (Z.of_nat (List.length payload) =? 0); [split; reflexivity|].
      destruct (parseColor payload); simpl stored_mqtt_brightness_topic;
        destruct (String.eqb topic (stored_mqtt_brightness_topic g));
        try (split; reflexivity);
        destruct (0 <? Z.of_nat (List.length payload)); try (split; reflexivity);
        destruct ((0 <=? atoi (copyInto 5 payload))
                  && (atoi (copyInto 5 payload) <=? 255)); split; reflexivity.
    - destruct (String.eqb topic (stored_mqtt_brightness_topic g));
        try (split; reflexivity);
        destruct (0 <? Z.of_nat (List.length payload)); try (split; reflexivity);
        destruct ((0 <=? atoi (copyInto 5 payload))
                  && (atoi (copyInto 5 payload) <=? 255)); split; reflexivity. }
  destruct HO as [HS HP].
  assert (HE : mqttCallback topic payload g
               = mkGlobals (wifiConnected g) (stored_mqtt_color_topic g)
                   (stored_mqtt_brightness_topic g)
                   (mqttColorActive (mqttCallback topic payload g))
                   (mqttColor (mqttCallback topic payload g))
                   (lastTimeSync g) (clockColour g)
                   (brightness (mqttCallback topic payload g))
                   (currentHour g) (currentMinute g) (currentSecond g)
                   (previousMinute g)).
  { destruct (mqttCallback_rest topic payload g)
      as (Hw & Hct & Hbt & Hl & Hcc & Hh & Hm).
    rewrite <- Hw, <- Hct, <- Hbt, <- Hl, <- Hcc, <- Hh, <- Hm, <- HS, <- HP.
    destruct (mqttCallback topic payload g). reflexivity. }
  split; [exact HE|]. split; [apply mqttCallback_rest|].
  split; [exact HS|]. split; [exact HP|].
  split; [|split].
  - intros Hc. apply String.eqb_neq in Hc.
    destruct (mqttCallback_override topic payload g) as [A C].
    rewrite A, C, Hc. split; reflexivity.
  - intros Hb. apply String.eqb_neq in Hb.
    now apply mqttCallback_brightness_other.
  - intros Hc Hb. apply String.eqb_neq in Hc. apply String.eqb_neq in Hb.
    unfold mqttCallback. rewrite Hc, Hb. reflexivity.
Qed.

Lemma mqttCallback_touches_only_its_field_witness :
  "led-clock/other"%string <> stored_mqtt_color_topic globals0
  /\ "led-clock/other"%string <> stored_mqtt_brightness_topic globals0
  /\ mqttCallback "led-clock/other" (bytes "#FF0000") globals0 = globals0
  /\ previousMinute (mqttCallback MQTT_COLOR_TOPIC (bytes "#FF0000") globals0)
     = previousMinute globals0.
Proof.
  assert (Hc : "led-clock/other"%string <> stored_mqtt_color_topic globals0)
    by discriminate.
  assert (Hb : "led-clock/other"%string <> stored_mqtt_brightness_topic globals0)
    by discriminate.
  destruct (mqttCallback_touches_only_its_field "led-clock/other"
              (bytes "#FF0000") globals0) as (_ & _ & _ & _ & _ & _ & N).
  destruct (mqttCallback_touches_only_its_field MQTT_COLOR_TOPIC
              (bytes "#FF0000") globals0) as (_ & _ & _ & P & _).
  split; [exact Hc|]. split; [exact Hb|].
  split; [exact (N Hc Hb)|exact P].
Defined.

(** X9. The decimal text of a number below 1000 sets the brightness to that
    number when it is at most 255 and leaves the brightness as it was when it
    is larger. *)
Theorem mqttCallback_brightness_decimal g n :
  0 <= n < 1000 ->
  brightness (mqttCallback (stored_mqtt_brightness_topic g) (decimal n) g)
  = if n <=? 255 then n else brightness g.
Proof.
  intros Hn.
  assert (Hall : forallb (fun k => atoi (copyInto 5 (decimal k)) =? k)
                   (zrange 0 1000) = true) by (vm_compute; reflexivity).
  rewrite forallb_forall in Hall.
  assert (Ha : atoi (copyInto 5 (decimal n)) = n).
  { apply Z.eqb_eq, Hall, zrange_In. lia. }
  rewrite mqttCallback_brightness; [|reflexivity|].
  - rewrite Ha. destruct (Z.leb_spec 0 n); [|lia]. reflexivity.
  - unfold decimal. destruct (n <? 10); [discriminate|].
    destruct (n <? 100); discriminate.
Qed.

Lemma mqttCallback_brightness_decimal_witness :
  0 <= 300 < 1000
  /\ brightness (mqttCallback (stored_mqtt_brightness_topic globals0)
                   (decimal 300) globals0) = 25.
Proof.
  assert (H : 0 <= 300 < 1000) by lia.
  split; [exact H|].
  exact (mqttCallback_brightness_decimal globals0 300 H).
Defined.

(** ** One pass of the loop, continued *)

(** The branches a pass can take. *)
Ltac pass_cases e :=
  unfold loop, connectToWiFi;
  destruct (wifi_at_entry e); destruct (wifi_reconnected e);
  cbn [negb set_wifiConnected lastTimeSync];
  match goal with
  | |- context [syncInterval <? ?x] => destruct (syncInterval <? x)
  end;
  destruct (local_time e) as [[[hh mm] ss]|];
  destruct (wifi_at_bus e); destruct (bus_connected e); cbn [negb];
  destruct (inbound e) as [[topic payload]|]; cbn [fst snd].

Ltac through_callback :=
  try match goal with
    | |- context [mqttCallback ?t ?p ?x] =>
        destruct (mqttCallback_rest t p x)
          as (Hw & _ & _ & _ & _ & Hh & Hm);
        rewrite ?Hw, ?Hh, ?Hm
    end.

(** X11. The time a pass shows comes from [getLocalTime] alone: when the
    clock cannot be read the stored hour and minute are kept, otherwise they
    are the values read; no message changes them. *)
Theorem loop_keeps_last_known_time e g :
  currentHour (fst (loop e g))
  = match local_time e with Some (h, _, _) => h | None => currentHour g end
  /\ currentMinute (fst (loop e g))
     = match local_time e with Some (_, m, _) => m | None => currentMinute g end.
Proof.
  pass_cases e; through_callback; split; reflexivity.
Qed.

(** The link flag a pass leaves, and the delay it ends with. *)
Lemma loop_link_flag e g :
  wifiConnected (fst (loop e g))
  = wifiConnected g || (negb (wifi_at_entry e) && wifi_reconnected e)
  /\ (forall ms, In (EvDelay ms) (snd (loop e g)) ->
                 ms = if wifiConnected (fst (loop e g)) then 500 else 100).
Proof.
  assert (HN : forall ops ms, ~ In (EvDelay ms) (map EvStrip ops)).
  { intros ops ms H. apply in_map_iff in H. destruct H as [op [H _]].
    discriminate. }
  pass_cases e; through_callback;
    (split; [simpl; rewrite ?orb_true_r, ?orb_false_r; reflexivity|]);
    intros ms H; rewrite !in_app_iff in H; simpl In in H;
    repeat (destruct H as [H|H]; try discriminate; try contradiction;
            try (now apply HN in H));
    inversion H; reflexivity.
Qed.

(** X15. A pass activates the colour override, or changes the override
    colour, only by dispatching a colour message that the callback accepts. *)
Theorem loop_override_only_by_message e g :
  (mqttColorActive (fst (loop e g)) = true ->
   activates e g = true \/ mqttColorActive g = true)
  /\ (mqttColor (fst (loop e g)) <> mqttColor g -> activates e g = true).
Proof.
  unfold activates.
  pass_cases e;
    try (split; [intros H; simpl in H; (discriminate || (right; exact H))
                |intros H; exfalso; apply H; reflexivity]);
    match goal with
    | |- context [mqttCallback ?t ?p ?x] =>
        destruct (mqttCallback_override t p x) as [A C];
        rewrite A, C; simpl stored_mqtt_color_topic;
        simpl mqttColorActive; simpl mqttColor;
        destruct (String.eqb t (stored_mqtt_color_topic g));
        destruct (parseColor p);
        destruct (Z.of_nat (List.length p) =? 0); simpl;
        (split; [intros H; (discriminate || (left; reflexivity)
                            || (right; exact H))
                |intros H; try reflexivity; exfalso; apply H; reflexivity])
    end.
Qed.

Lemma loop_override_only_by_message_witness :
  mqttColorActive (fst (loop greenPass globals0)) = true
  /\ (activates greenPass globals0 = true \/ mqttColorActive globals0 = true).
Proof.
  assert (H : mqttColorActive (fst (loop greenPass globals0)) = true)
    by reflexivity.
  split; [exact H|].
  exact (proj1 (loop_override_only_by_message greenPass globals0) H).
Defined.

(** X12. A pass made at most [syncInterval] after the last sync, by the
    millisecond counter, does not call [configTzTime] and leaves
    [lastTimeSync] as it was; no pass calls it more than once. *)
Theorem loop_no_early_resync e g elapsed :
  0 <= elapsed <= syncInterval ->
  millis_at_check e = u32 (lastTimeSync g + elapsed) ->
  syncCalls (snd (loop e g)) = 0%nat
  /\ lastTimeSync (fst (loop e g)) = lastTimeSync g
  /\ forall e' g', (syncCalls (snd (loop e' g')) <= 1)%nat.
Proof.
  intros Hel Hm.
  assert (HS : forall ops, filter (fun ev => match ev with
                                           | EvConfigTzTime => true
                                           | _ => false
                                           end) (map EvStrip ops) = []).
  { induction ops as [|op ops IH]; [reflexivity|exact IH]. }
  assert (HC : forall e' g',
             syncCalls (snd (loop e' g'))
             = if syncInterval <? u32 (millis_at_check e' - lastTimeSync g')
               then 1%nat else 0%nat).
  { intros e' g'. unfold syncCalls, loop, connectToWiFi.
    destruct (wifi_at_entry e'); destruct (wifi_reconnected e');
      cbn [negb set_wifiConnected lastTimeSync];
      destruct (syncInterval <? u32 (millis_at_check e' - lastTimeSync g'));
      destruct (wifi_at_bus e'); destruct (bus_connected e'); cbn [negb fst snd];
      rewrite !filter_app, HS; reflexivity. }
  assert (Hdue : (syncInterval <? u32 (millis_at_check e - lastTimeSync g)) = false).
  { rewrite Hm, u32_elapsed by (unfold syncInterval in Hel; lia).
    apply Z.ltb_ge. lia. }
  split; [now rewrite HC, Hdue|]. split.
  - rewrite (proj2 (loop_sync e g)), Hdue. reflexivity.
  - intros e' g'. rewrite HC.
    destruct (syncInterval <? u32 (millis_at_check e' - lastTimeSync g')); lia.
Qed.

Lemma loop_no_early_resync_witness :
  0 <= 900000 <= syncInterval
  /\ millis_at_check (mkCycle true true 900000 900001 None true true None)
     = u32 (lastTimeSync globals0 + 900000)
  /\ syncCalls (snd (loop (mkCycle true true 900000 900001 None true true None)
                       globals0)) = 0%nat.
Proof.
  assert (H1 : 0 <= 900000 <= syncInterval) by (unfold syncInterval; lia).
  assert (H2 : millis_at_check (mkCycle true true 900000 900001 None true true None)
               = u32 (lastTimeSync globals0 + 900000)) by reflexivity.
  split; [exact H1|]. split; [exact H2|].
  exact (proj1 (loop_no_early_resync
                  (mkCycle true true 900000 900001 None true true None)
                  globals0 900000 H1 H2)).
Defined.

(** ** From the globals to the strip *)

Lemma run_frame_brightness h m c st :
  stripBrightness (run (displayTheTime h m c) st) = stripBrightness st.
Proof.
  rewrite displayTheTime_frameFills, run_cons, run_app.
  change (stripBrightness (run (frameFills h m c) (exec Clear st)) = stripBrightness st).
  assert (H : forall ops s, Forall (fillWithin c) ops ->
                stripBrightness (run ops s) = stripBrightness s).
  { induction ops as [|op ops IH]; intros s HF; [reflexivity|].
    inversion HF as [|? ? Hop Hops]; subst.
    destruct op; simpl in Hop; try contradiction.
    rewrite run_cons, IH by exact Hops. cbn [exec]. unfold fill.
    destruct (LEDCLOCK_COUNT <=? u16 first); reflexivity. }
  rewrite H by apply frameFills_within. reflexivity.
Qed.

Lemma runs_range g tr : runs g tr -> 0 <= brightness g <= 255.
Proof.
  induction 1 as [w|g tr e _ IH].
  - destruct w; simpl; lia.
  - apply loop_range. exact IH.
Qed.

(** X10. After a pass from any reachable state, whatever the strip held
    before: the driver's brightness is the global [brightness]; the latched
    frame is the buffer; and a LED holds the colour source of the pass
    (override colour if active, else default) exactly where the frame for the
    stored hour and minute has a fill, and is off elsewhere. *)
Theorem loop_latches_current_time g tr e st :
  runs g tr ->
  stripBrightness (run (stripCalls (snd (loop e g))) st)
  = brightness (fst (loop e g))
  /\ shown (run (stripCalls (snd (loop e g))) st)
     = pixels (run (stripCalls (snd (loop e g))) st)
  /\ forall i,
       pixel (run (stripCalls (snd (loop e g))) st) i
       = if covered (frameFills (currentHour (fst (loop e g)))
                       (currentMinute (fst (loop e g))) 1) i
         then displayColor (fst (loop e g)) else 0.
Proof.
  intros HR. rewrite loop_frame, run_cons.
  pose proof (loop_range e g (runs_range g tr HR)) as Hb.
  split; [|split].
  - rewrite run_frame_brightness. cbn [exec stripBrightness].
    unfold u8. apply Z.mod_small. lia.
  - apply shown_displayTheTime.
  - intros i. rewrite pixel_displayTheTime.
    rewrite (covered_frameFills_colour _ _ (displayColor (fst (loop e g))) 1).
    reflexivity.
Qed.

Lemma loop_latches_current_time_witness :
  runs (fst (setup true)) (snd (setup true))
  /\ stripBrightness
       (run (stripCalls (snd (loop greenPass (fst (setup true))))) usedStrip) = 25
  /\ pixel (run (stripCalls (snd (loop greenPass (fst (setup true))))) usedStrip) 42
     = 65280.
Proof.
  assert (H : runs (fst (setup true)) (snd (setup true))) by apply runs_setup.
  destruct (loop_latches_current_time _ _ greenPass usedStrip H) as (B & _ & P).
  split; [exact H|]. split; [exact B|]. exact (P 42).
Defined.

Lemma parseColor_range payload v :
  parseColor payload = Some v -> 0 <= v < 2 ^ 32.
Proof.
  unfold parseColor. destruct (strtol _ 16) as [cv rest].
  destruct (_ && _); [|discriminate]. intros H. inversion H.
  unfold u32. apply Z.mod_pos_bound. lia.
Qed.

Lemma mqttCallback_colour_range topic payload g :
  0 <= mqttColor g < 2 ^ 32 ->
  0 <= mqttColor (mqttCallback topic payload g) < 2 ^ 32.
Proof.
  intros H. rewrite (proj2 (mqttCallback_override topic payload g)).
  destruct (String.eqb topic (stored_mqtt_color_topic g)
            && negb (Z.of_nat (List.length payload) =? 0)); [|exact H].
  destruct (parseColor payload) as [v|] eqn:E; [|exact H].
  exact (parseColor_range payload v E).
Qed.

Lemma loop_colour_range e g :
  0 <= mqttColor g < 2 ^ 32 -> 0 <= mqttColor (fst (loop e g)) < 2 ^ 32.
Proof.
  intros H. pass_cases e; try apply mqttCallback_colour_range; simpl; exact H.
Qed.

(** X14. In every state the sketch reaches, the default colour is 0xD0D37D
    and the two topics are the configured ones: nothing at run time changes
    them; the override colour is a 32-bit value. *)
Theorem settings_never_change g tr :
  runs g tr ->
  clockColour g = 13685629
  /\ stored_mqtt_color_topic g = MQTT_COLOR_TOPIC
  /\ stored_mqtt_brightness_topic g = MQTT_BRIGHTNESS_TOPIC
  /\ 0 <= mqttColor g < 2 ^ 32.
Proof.
  induction 1 as [w|g tr e _ (IC & IT & IB & IM)].
  - destruct w; simpl; repeat split; lia.
  - destruct (loop_settings e g) as (Ht & Hb & Hc).
    rewrite Ht, Hb, Hc.
    split; [exact IC|]. split; [exact IT|]. split; [exact IB|].
    apply loop_colour_range. exact IM.
Qed.

Lemma settings_never_change_witness :
  runs (fst (loop greenPass (fst (setup false))))
       (snd (setup false) ++ snd (loop greenPass (fst (setup false))))
  /\ clockColour (fst (loop greenPass (fst (setup false)))) = 13685629
  /\ mqttColor (fst (loop greenPass (fst (setup false)))) = 65280.
Proof.
  assert (H : runs (fst (loop greenPass (fst (setup false))))
                (snd (setup false) ++ snd (loop greenPass (fst (setup false)))))
    by (exact (runs_loop _ _ greenPass (runs_setup false))).
  split; [exact H|].
  split; [exact (proj1 (settings_never_change _ _ H))|reflexivity].
Defined.

(** ** Waiting for the link and for the bus *)

Lemma waitForLink_spec status : forall timeout k,
  (k <= waitForLink status timeout k <= k + timeout)%nat
  /\ (forall j, (k <= j < waitForLink status timeout k)%nat -> status j = false)
  /\ ((waitForLink status timeout k < k + timeout)%nat ->
      status (waitForLink status timeout k) = true).
Proof.
  induction timeout as [|t IH]; intros k; simpl.
  - destruct (status k) eqn:E; repeat split; try lia; intros; lia.
  - destruct (status k) eqn:E.
    + repeat split; try lia; intros; (lia || assumption).
    + destruct (IH (S k)) as (B & F & T). split; [lia|]. split.
      * intros j Hj. destruct (Nat.eq_dec j k) as [->|]; [exact E|].
        apply F. lia.
      * intros H. apply T. lia.
Qed.

Lemma delays_polled status g :
  delays (snd (connectToWiFiPolled status g))
  = repeat 1000 (waitForLink status 15 0).
Proof.
  unfold connectToWiFiPolled.
  destruct (status (S (waitForLink status 15 0))); cbn [snd];
    unfold delays; rewrite flat_map_app; cbn [flat_map app];
    induction (waitForLink status 15 0) as [|n IH]; simpl; congruence.
Qed.

(** X16. [connectToWiFi] waits in one-second delays, at most 15 of them and
    only while the link is read as down (none when it is up at once).  Its
    result is the status read after the wait; it sets [wifiConnected] when
    that is up and changes nothing otherwise, as the pass of [loop] assumes
    of it. *)
Theorem connectToWiFi_bounded_wait status g :
  let n := List.length (delays (snd (connectToWiFiPolled status g))) in
  (n <= 15)%nat
  /\ delays (snd (connectToWiFiPolled status g)) = repeat 1000 n
  /\ (forall k, (k < n)%nat -> status k = false)
  /\ ((n < 15)%nat -> status n = true)
  /\ fst (fst (connectToWiFiPolled status g)) = status (S n)
  /\ snd (fst (connectToWiFiPolled status g))
     = fst (connectToWiFi (status (S n)) g).
Proof.
  cbv zeta. rewrite delays_polled, repeat_length.
  destruct (waitForLink_spec status 15 0) as (B & F & T).
  split; [lia|]. split; [reflexivity|]. split; [intros k Hk; apply F; lia|].
  split; [intros H; apply T; lia|].
  unfold connectToWiFiPolled, connectToWiFi.
  destruct (status (S (waitForLink status 15 0))); split; reflexivity.
Qed.

Lemma mqttRetry_returns connected connect g n : forall fuel k,
  (forall j, (k <= j < k + n)%nat -> connected j = false) ->
  connected (k + n)%nat = true ->
  (n <= fuel)%nat ->
  mqttRetry fuel connected connect g k
  = Some (flat_map (fun j => mqttRound (connect j) g) (seq k n)).
Proof.
  induction n as [|n IH]; intros fuel k Hdown Hup Hfuel.
  - rewrite Nat.add_0_r in Hup. destruct fuel; simpl; now rewrite Hup.
  - destruct fuel as [|fuel]; [lia|]. simpl.
    rewrite (Hdown k) by lia.
    rewrite (IH fuel (S k)); [reflexivity| | |lia].
    + intros j Hj. apply Hdown. lia.
    + replace (S k + n)%nat with (k + S n)%nat by lia. exact Hup.
Qed.

Lemma mqttRetry_starves connected connect g : forall fuel k,
  (forall j, (k <= j <= k + fuel)%nat -> connected j = false) ->
  mqttRetry fuel connected connect g k = None.
Proof.
  induction fuel as [|fuel IH]; intros k Hdown; simpl.
  - now rewrite (Hdown k) by lia.
  - rewrite (Hdown k) by lia. rewrite IH; [reflexivity|].
    intros j Hj. apply Hdown. lia.
Qed.

(** X17. [connectToMQTT] does nothing while the link is down.  With the link
    up it returns as soon as the session is read as connected, after one
    round per earlier read: each round is a connect attempt followed by the
    subscriptions to the colour and the brightness topic when it succeeded
    and by a 5 s delay when it failed.  While the session is never read as
    connected it keeps retrying. *)
Theorem connectToMQTT_rounds connected connect g n fuel :
  (forall j, (j < n)%nat -> connected j = false) ->
  connected n = true ->
  (n <= fuel)%nat ->
  connectToMQTTPolled fuel true connected connect g
  = Some (flat_map (fun j => mqttRound (connect j) g) (seq 0 n))
  /\ connectToMQTTPolled fuel false connected connect g = Some []
  /\ (forall fuel', (fuel' < n)%nat ->
        connectToMQTTPolled fuel' true connected connect g = None).
Proof.
  intros Hdown Hup Hfuel. unfold connectToMQTTPolled.
  split; [|split; [reflexivity|]].
  - apply mqttRetry_returns; try assumption.
    intros j Hj. apply Hdown. lia.
  - intros fuel' Hf. apply mqttRetry_starves.
    intros j Hj. apply Hdown. lia.
Qed.

Lemma connectToMQTT_rounds_witness :
  (forall j, (j < 2)%nat -> sessionAtThird j = false)
  /\ sessionAtThird 2 = true
  /\ connectToMQTTPolled 5 true sessionAtThird acceptAtSecond globals0
     = Some [MqttConnect; Delay 5000;
             MqttConnect; MqttSubscribe MQTT_COLOR_TOPIC;
             MqttSubscribe MQTT_BRIGHTNESS_TOPIC].
Proof.
  assert (H1 : forall j, (j < 2)%nat -> sessionAtThird j = false).
  { intros j Hj. destruct j as [|[|j]]; [reflexivity|reflexivity|lia]. }
  assert (H2 : sessionAtThird 2 = true) by reflexivity.
  assert (H3 : (2 <= 5)%nat) by lia.
  split; [exact H1|]. split; [exact H2|].
  exact (proj1 (connectToMQTT_rounds sessionAtThird acceptAtSecond globals0
                  2 5 H1 H2 H3)).
Defined.

Lemma connectToWiFi_bounded_wait_witness :
  delays (snd (connectToWiFiPolled upAtThird globals0)) = [1000; 1000; 1000]
  /\ (List.length (delays (snd (connectToWiFiPolled upAtThird globals0))) <= 15)%nat
  /\ wifiConnected (snd (fst (connectToWiFiPolled upAtThird globals0))) = true.
Proof.
  split; [reflexivity|].
  split; [exact (proj1 (connectToWiFi_bounded_wait upAtThird globals0))|].
  reflexivity.
Defined.

(** ** One pass, poll by poll *)


(** The rounds made by a loop that has not ended: one per unit of fuel. *)
Lemma mqttRounds_starved fuel connected connect g : forall k,
  (forall j, (k <= j <= k + fuel)%nat -> connected j = false) ->
  mqttRounds fuel connected connect g k
  = (false, flat_map (fun j => mqttRound (connect j) g) (seq k fuel)).
Proof.
  induction fuel as [|fuel IH]; intros k H; simpl.
  - now rewrite (H k) by lia.
  - rewrite (H k) by lia. rewrite IH; [reflexivity|].
    intros j Hj. apply H. lia.
Qed.

(** [mqttRounds] and [mqttRetry] are the same loop. *)
Lemma mqttRounds_retry fuel connected connect g : forall k,
  mqttRetry fuel connected connect g k
  = if fst (mqttRounds fuel connected connect g k)
    then Some (snd (mqttRounds fuel connected connect g k)) else None.
Proof.
  induction fuel as [|fuel IH]; intros k; simpl.
  - destruct (connected k); reflexivity.
  - destruct (connected k); [reflexivity|]. rewrite IH.
    destruct (mqttRounds fuel connected connect g (S k)) as [ended rest].
    simpl. destruct ended; reflexivity.
Qed.

Lemma stripSteps_app tr1 tr2 :
  stripSteps (tr1 ++ tr2) = stripSteps tr1 ++ stripSteps tr2.
Proof. apply flat_map_app. Qed.

Lemma stripSteps_net calls : stripSteps (map Net calls) = [].
Proof. induction calls as [|c calls IH]; [reflexivity|exact IH]. Qed.

Lemma stripSteps_frame g :
  stripSteps (frameSteps g)
  = SetBrightness (brightness g)
      :: displayTheTime (currentHour g) (currentMinute g) (displayColor g).
Proof.
  unfold frameSteps. rewrite map_app, stripSteps_app.
  cbn [map stripSteps flat_map app]. rewrite app_nil_r.
  f_equal. induction (displayTheTime _ _ _) as [|op ops IH]; [reflexivity|].
  cbn [map flat_map app]. f_equal. exact IH.
Qed.




(** The branches of a pass spelled out. *)
Ltac polled_cases o :=
  unfold loopPolled, connectToWiFiPolled;
  destruct (wifi_at_entry (seen o));
  [|destruct (link_reads o (S (waitForLink (link_reads o) 15 0)))];
  cbn [negb fst snd set_wifiConnected lastTimeSync];
  match goal with
  | |- context [syncInterval <? ?x] => destruct (syncInterval <? x) eqn:Hsync
  end;
  destruct (local_time (seen o)) as [[[hh mm] ss]|];
  destruct (wifi_at_bus (seen o)); destruct (bus_connected (seen o));
  cbn [negb];
  try (destruct (link_in_connect o);
       [match goal with
        | |- context [mqttRounds ?f ?c ?cn ?x ?k] =>
            destruct (mqttRounds f c cn x k) as [[|] calls] eqn:HR
        end|]);
  cbn [fst snd].

(** A pass that comes back is a pass of [loop], and ends with the frame and
    the closing delay. *)
Lemma loopPolled_returns fuel o g g' :
  fst (loopPolled fuel o g) = Some g' ->
  g' = fst (loop (cycleOf o) g)
  /\ stripSteps (snd (loopPolled fuel o g))
     = SetBrightness (brightness g')
         :: displayTheTime (currentHour g') (currentMinute g') (displayColor g')
  /\ exists tr,
       snd (loopPolled fuel o g)
       = tr ++ [Out (EvDelay (if wifiConnected g' then 500 else 100))].
Proof.
  assert (HF : forall x tr,
             exists tr', tr ++ frameSteps x
                         = tr' ++ [Out (EvDelay (if wifiConnected x then 500 else 100))]).
  { intros x tr. unfold frameSteps. rewrite map_app. cbn [map].
    eexists. rewrite app_assoc. reflexivity. }
  unfold loop, cycleOf, connectToWiFi. cbn [wifi_at_entry wifi_reconnected
    millis_at_check millis_at_update local_time wifi_at_bus bus_connected inbound].
  polled_cases o; intros H; inversion H; subst g'; clear H;
    (split; [reflexivity|]);
    (split; [rewrite !stripSteps_app, ?stripSteps_net, stripSteps_frame;
             cbn [stripSteps flat_map app]; reflexivity|]);
    rewrite ?app_assoc; apply HF.
Qed.









(** ** Time resynchronisation, poll by poll *)











(** ** The link flag *)

(** X13. [wifiConnected] is set and never cleared.  From a state in which it
    is true, every pass that comes back leaves it true and makes the 500 ms
    delay its last step, also a pass that finds the link down and waits for it
    in vain (its one-second waits come before); and it stays true through any
    number of passes. *)
Theorem wifiConnected_never_cleared g :
  wifiConnected g = true ->
  (forall fuel o g',
     fst (loopPolled fuel o g) = Some g' ->
     wifiConnected g' = true
     /\ exists tr, snd (loopPolled fuel o g) = tr ++ [Out (EvDelay 500)])
  /\ forall es, wifiConnected (fst (loops es g)) = true.
Proof.
  intros Hg. split.
  - intros fuel o g' H.
    destruct (loopPolled_returns fuel o g g' H) as (E & _ & tr & T).
    assert (W : wifiConnected g' = true).
    { rewrite E, (proj1 (loop_link_flag (cycleOf o) g)), Hg. reflexivity. }
    split; [exact W|]. exists tr. rewrite T, W. reflexivity.
  - intros es. revert g Hg. induction es as [|e es IH]; intros g Hg; [exact Hg|].
    rewrite (proj1 (loops_cons e es g)). apply IH.
    rewrite (proj1 (loop_link_flag e g)), Hg. reflexivity.
Qed.

Lemma wifiConnected_never_cleared_witness :
  wifiConnected (fst (setup true)) = true
  /\ (exists g', fst (loopPolled 0 lostPolls (fst (setup true))) = Some g'
                 /\ wifiConnected g' = true)
  /\ waited (snd (loopPolled 0 lostPolls (fst (setup true)))) = 15500
  /\ wifiConnected (fst (loops [darkPass; darkPass] (fst (setup true)))) = true.
Proof.
  assert (H : wifiConnected (fst (setup true)) = true) by reflexivity.
  destruct (wifiConnected_never_cleared (fst (setup true)) H) as [P L].
  split; [exact H|]. split; [|split; [reflexivity|exact (L [darkPass; darkPass])]].
  eexists. split; [reflexivity|].
  exact (proj1 (P 0%nat lostPolls _ eq_refl)).
Defined.

(** ** The portal variant *)

(** The branches of a pass of the variant. *)
Ltac portal_cases o :=
  unfold Portal.loop;
  destruct (wifi_at_entry (seen o));
  [|destruct (link_reads o (S (waitForLink (link_reads o) 10 0)))];
  cbn [negb fst snd set_wifiConnected lastTimeSync];
  match goal with
  | |- context [syncInterval <? ?x] => destruct (syncInterval <? x)
  end;
  destruct (local_time (seen o)) as [[[hh mm] ss]|];
  destruct (bus_connected (seen o)); cbn [negb];
  try match goal with
    | |- context [mqttRounds ?f ?c ?cn ?x ?k] =>
        destruct (mqttRounds f c cn x k) as [[|] calls] eqn:HR
    end;
  destruct (inbound (seen o)) as [[topic payload]|];
  cbn [fst snd dispatch].

(** A pass of the variant that comes back ends with the frame and the
    closing delay; the link flag is only ever set, the default colour and the
    colour topic kept. *)
Lemma portal_loop_returns fuel o g g' :
  fst (Portal.loop fuel o g) = Some g' ->
  stripSteps (snd (Portal.loop fuel o g))
  = SetBrightness (brightness g')
      :: displayTheTime (currentHour g') (currentMinute g') (displayColor g')
  /\ (exists tr,
        snd (Portal.loop fuel o g)
        = tr ++ [Out (EvDelay (if wifiConnected g' then 500 else 100))])
  /\ (wifiConnected g = true -> wifiConnected g' = true)
  /\ clockColour g' = clockColour g.
Proof.
  assert (HF : forall x tr,
             exists tr', tr ++ frameSteps x
                         = tr' ++ [Out (EvDelay (if wifiConnected x then 500 else 100))]).
  { intros x tr. unfold frameSteps. rewrite map_app. cbn [map].
    eexists. rewrite app_assoc. reflexivity. }
  portal_cases o; intros H; inversion H; subst g'; clear H;
    (split; [rewrite !stripSteps_app, ?stripSteps_net, stripSteps_frame;
             cbn [stripSteps flat_map app];
             rewrite ?stripSteps_net; reflexivity|]);
    (split; [rewrite ?app_assoc; apply HF|]);
    try match goal with
      | |- context [mqttCallback ?t ?p ?x] =>
          destruct (mqttCallback_rest t p x) as (Hw & _ & _ & _ & Hc & _);
          rewrite Hw, Hc
      end;
    (split; [intros Hg; simpl; try exact Hg; reflexivity|reflexivity]).
Qed.


(** X18. In the portal variant [setup] returns only with a stored SSID and
    the link up (otherwise it stays in the configuration portal), so in every
    state its loop reaches [wifiConnected] is true, and every pass from such a
    state that comes back makes the 500 ms delay its last step. *)
Theorem portal_loop_runs_linked p g tr :
  Portal.runs p g tr ->
  Portal.stored_wifi_ssid p <> ""%string
  /\ wifiConnected g = true
  /\ forall fuel o g',
       fst (Portal.loop fuel o g) = Some g' ->
       wifiConnected g' = true
       /\ exists tr', snd (Portal.loop fuel o g) = tr' ++ [Out (EvDelay 500)].
Proof.
  intros HR.
  assert (HI : Portal.stored_wifi_ssid p <> ""%string /\ wifiConnected g = true).
  { induction HR as [status g tr Hs|g tr fuel o g' _ [IS IW] Hg].
    - unfold Portal.setup, Portal.connectToWiFi in Hs.
      destruct (Portal.stored_wifi_ssid p) as [|c s] eqn:E;
        [discriminate Hs|].
      cbn [String.length Nat.eqb] in Hs. unfold connectToWiFiPolled in Hs.
      destruct (status (S (waitForLink status 15 0))); [|discriminate Hs].
      inversion Hs; subst. split; [discriminate|reflexivity].
    - split; [exact IS|].
      destruct (portal_loop_returns fuel o g g' Hg) as (_ & _ & W & _).
      exact (W IW). }
  destruct HI as [IS IW]. split; [exact IS|]. split; [exact IW|].
  intros fuel o g' Hg.
  destruct (portal_loop_returns fuel o g g' Hg) as (_ & [tr' T] & W & _).
  split; [exact (W IW)|]. exists tr'. rewrite T, (W IW). reflexivity.
Qed.

Lemma portal_loop_runs_linked_witness :
  Portal.runs Portal.homeStored Portal.homeGlobals
    (map Net [WifiMode; WifiSetHostname; WifiBegin;
              Delay 1000; Delay 1000; Delay 1000]
     ++ map Out [EvConfigTzTime; EvDelay 150; EvStrip Begin; EvStrip Latch;
                 EvStrip (SetBrightness 25)])
  /\ wifiConnected Portal.homeGlobals = true
  /\ waited (snd (Portal.loop 0 Portal.awayPolls Portal.homeGlobals)) = 10500
  /\ exists tr', snd (Portal.loop 0 Portal.awayPolls Portal.homeGlobals)
                 = tr' ++ [Out (EvDelay 500)].
Proof.
  assert (H : Portal.runs Portal.homeStored Portal.homeGlobals
                (map Net [WifiMode; WifiSetHostname; WifiBegin;
                          Delay 1000; Delay 1000; Delay 1000]
                 ++ map Out [EvConfigTzTime; EvDelay 150; EvStrip Begin;
                             EvStrip Latch; EvStrip (SetBrightness 25)]))
    by (apply (Portal.runs_setup Portal.homeStored upAtThird); reflexivity).
  destruct (portal_loop_runs_linked _ _ _ H) as (_ & W & P).
  split; [exact H|]. split; [exact W|]. split; [reflexivity|].
  exact (proj2 (P 0%nat Portal.awayPolls _ eq_refl)).
Defined.


